(** * SailPoint MCP server: request dispatcher, token cache and error formatter

    A shallow embedding of [src/index.ts].  The module-level mutable state
    (the cached token, its expiry, the singleton HTTP client) is threaded
    explicitly through a small state-and-exception monad; every network call
    is appended to a log and answered by an oracle, so that "how many calls"
    and "which request" are ordinary facts about the final world. *)

From Stdlib Require Import String Ascii List ZArith Bool Lia DecimalString.
Import ListNotations.
Local Open Scope string_scope.
Local Open Scope Z_scope.

(* ===================================================================== *)
(** * JavaScript values *)
(* ===================================================================== *)

Module Js.

(** The values that reach the server come from [JSON.parse] (tool arguments,
    upstream bodies) plus [undefined] for missing properties.  JSON numbers
    are modelled by the integers (limits, offsets, lifetimes in seconds,
    clock readings in milliseconds).  Objects are association lists in
    insertion order, as [JSON.stringify] and axios observe them. *)
#[warnings="-register-all"]
Inductive JsValue : Type :=
  | JUndefined
  | JNull
  | JBool (b : bool)
  | JNum (n : Z)
  | JStr (s : string)
  | JArray (xs : list JsValue)
  | JObject (fields : list (string * JsValue)).

Definition JsObject := list (string * JsValue).

(** The result of arithmetic: a number or NaN. *)
Inductive number : Type :=
  | Num (z : Z)
  | NaN.

(** [ToBoolean]: [false], [0], the empty string, [null] and [undefined] are
    falsy; everything else, empty arrays and objects included, is truthy. *)
Definition truthy (v : JsValue) : bool :=
  match v with
  | JUndefined | JNull => false
  | JBool b => b
  | JNum n => negb (n =? 0)
  | JStr s => negb (s =? "")%string
  | JArray _ | JObject _ => true
  end.

(** [a || b] *)
Definition or_else (a b : JsValue) : JsValue := if truthy a then a else b.

(** [Array.prototype.join] on already converted elements. *)
Fixpoint join (sep : string) (xs : list string) : string :=
  match xs with
  | [] => ""
  | [x] => x
  | x :: rest => x ++ sep ++ join sep rest
  end.

(** [Number::toString] of an integer, in decimal digits.  This is what
    JavaScript prints below 10^21; from there on it prints in exponent
    notation, which no status code, limit or lifetime met here reaches. *)
Definition NumberToString (n : Z) : string :=
  NilZero.string_of_int (Z.to_int n).

(** [ToString], as used by template literals, [String(v)] and [join],
    goes through [ToPrimitive] on objects and arrays.  An object parsed
    from JSON holds no function, so an own key [toString] hides
    [Object.prototype.toString] with something that cannot be called, and
    the conversion throws "Cannot convert object to primitive value"; an
    array converts its elements in turn.  [printable v] says that the
    conversion of [v] does not throw. *)
Fixpoint printable (v : JsValue) : bool :=
  match v with
  | JArray xs => forallb printable xs
  | JObject fields =>
      negb (existsb (fun field => (fst field =? "toString")%string) fields)
  | _ => true
  end.

(** What the conversion gives when it does not throw.  Arrays print their
    elements joined by a comma, with [null] and [undefined] elements
    printed as the empty string; an object prints as "[object Object]". *)
Fixpoint stringOf (v : JsValue) : string :=
  match v with
  | JUndefined => "undefined"
  | JNull => "null"
  | JBool true => "true"
  | JBool false => "false"
  | JNum n => NumberToString n
  | JStr s => s
  | JArray xs =>
      join "," (map (fun x => match x with
                              | JUndefined | JNull => ""
                              | _ => stringOf x
                              end) xs)
  | JObject _ => "[object Object]"
  end.

(** [ToString]: [None] stands for the TypeError. *)
Definition ToString (v : JsValue) : option string :=
  if printable v then Some (stringOf v) else None.

(** The element conversion of [Array.prototype.join]. *)
Definition joinElement (v : JsValue) : string :=
  match v with
  | JUndefined | JNull => ""
  | _ => stringOf v
  end.

(** ** Own properties of objects *)

Fixpoint lookup (o : JsObject) (k : string) : option JsValue :=
  match o with
  | [] => None
  | (k', v) :: rest => if (k' =? k)%string then Some v else lookup rest k
  end.

(** [o.k] on an object: [undefined] when the key is missing. *)
Definition get (o : JsObject) (k : string) : JsValue :=
  match lookup o k with
  | Some v => v
  | None => JUndefined
  end.

(** [o.k = v]: overwrite in place, or append a new key at the end. *)
Fixpoint set (o : JsObject) (k : string) (v : JsValue) : JsObject :=
  match o with
  | [] => [(k, v)]
  | (k', v') :: rest =>
      if (k' =? k)%string then (k, v) :: rest else (k', v') :: set rest k v
  end.

(** [delete o.k] *)
Fixpoint remove (o : JsObject) (k : string) : JsObject :=
  match o with
  | [] => []
  | (k', v') :: rest =>
      if (k' =? k)%string then remove rest k else (k', v') :: remove rest k
  end.

Definition keys (o : JsObject) : list string := map fst o.

(** [v?.k]: [undefined] on [null] and [undefined]; an own-property read on
    objects; primitives and arrays have none of the property names the
    server reads. *)
Definition optGet (v : JsValue) (k : string) : JsValue :=
  match v with
  | JObject fields => get fields k
  | _ => JUndefined
  end.

(** ** [String.prototype.replace] with a string pattern *)

(** [stripPrefix p s] is the rest of [s] after the prefix [p], if any. *)
Fixpoint stripPrefix (p s : string) : option string :=
  match p, s with
  | EmptyString, _ => Some s
  | String a p', String b s' =>
      if Ascii.eqb a b then stripPrefix p' s' else None
  | String _ _, EmptyString => None
  end.

(** Splits [s] around the first occurrence of [p]. *)
Fixpoint splitFirst (p s : string) : option (string * string) :=
  match stripPrefix p s with
  | Some rest => Some ("", rest)
  | None =>
      match s with
      | EmptyString => None
      | String c s' =>
          match splitFirst p s' with
          | Some (before, after) => Some (String c before, after)
          | None => None
          end
      end
  end.

(** [GetSubstitution] without captures: [$$] is a dollar sign, [$&] the
    match, [$`] the text before it, [$'] the text after it; any other
    character, a lone dollar included, stands for itself. *)
Fixpoint GetSubstitution (matched before after template : string) : string :=
  match template with
  | EmptyString => ""
  | String c rest =>
      if Ascii.eqb c "$" then
        match rest with
        | EmptyString => String c ""
        | String d rest' =>
            if Ascii.eqb d "$" then
              String "$" (GetSubstitution matched before after rest')
            else if Ascii.eqb d "&" then
              matched ++ GetSubstitution matched before after rest'
            else if Ascii.eqb d "`" then
              before ++ GetSubstitution matched before after rest'
            else if Ascii.eqb d "'" then
              after ++ GetSubstitution matched before after rest'
            else
              String c (String d (GetSubstitution matched before after rest'))
        end
      else String c (GetSubstitution matched before after rest)
  end.

(** [s.replace(pattern, replacement)]: only the first occurrence. *)
Definition replace (s pattern replacement : string) : string :=
  match splitFirst pattern s with
  | Some (before, after) =>
      before ++ GetSubstitution pattern before after replacement ++ after
  | None => s
  end.

End Js.
Import Js.

(* ===================================================================== *)
(** * Configuration, HTTP and the world *)
(* ===================================================================== *)

(** [process.env], restricted to the four variables the server reads. *)
Record ProcessEnv : Type := {
  env_BASE_URL : option string;
  env_CLIENT_ID : option string;
  env_CLIENT_SECRET : option string;
  env_API_VERSION : option string
}.

(** [process.env.X || d]: an unset or empty variable gives the default. *)
Definition envOr (x : option string) (d : string) : string :=
  match x with
  | Some s => if (s =? "")%string then d else s
  | None => d
  end.

(** The module-level constants. *)
Record Config : Type := {
  SAILPOINT_BASE_URL : string;
  SAILPOINT_CLIENT_ID : string;
  SAILPOINT_CLIENT_SECRET : string;
  SAILPOINT_API_VERSION : string
}.

Definition loadConfig (e : ProcessEnv) : Config := {|
  SAILPOINT_BASE_URL := envOr (env_BASE_URL e) "";
  SAILPOINT_CLIENT_ID := envOr (env_CLIENT_ID e) "";
  SAILPOINT_CLIENT_SECRET := envOr (env_CLIENT_SECRET e) "";
  SAILPOINT_API_VERSION := envOr (env_API_VERSION e) "v3"
|}.

Inductive Method : Type := GET | POST.

(** A request body: none, the [URLSearchParams] of the token request (kept
    as its list of pairs), or a JSON value. *)
Inductive Body : Type :=
  | NoBody
  | FormBody (fields : list (string * string))
  | JsonBody (v : JsValue).

(** What axios is asked to send.  The keep-alive agents of the client are
    transport tuning and are left out. *)
Record HttpRequest : Type := {
  method : Method;
  baseURL : string;
  url : string;
  params : option JsObject;
  headers : list (string * string);
  data : Body;
  timeout : option Z
}.

Record HttpResponse : Type := {
  status : Z;
  resp_data : JsValue;
  resp_headers : JsObject
}.

Record AxiosError : Type := {
  message : string;
  response : option HttpResponse
}.

(** A settled axios promise. *)
Inductive AxiosResult : Type :=
  | Fulfilled (r : HttpResponse)
  | Rejected (e : AxiosError).

(** Thrown values: an axios error, or an [Error] object with its [name]
    ("Error", "TypeError") and [message]. *)
Inductive Thrown : Type :=
  | AxiosErr (e : AxiosError)
  | ErrorObj (name message : string).

Inductive Result (A : Type) : Type :=
  | Returned (a : A)
  | Threw (t : Thrown).
Arguments Returned {A} a.
Arguments Threw {A} t.

(** [error.message] *)
Definition messageOf (t : Thrown) : string :=
  match t with
  | AxiosErr e => message e
  | ErrorObj _ m => m
  end.

(** [Error.prototype.toString], which [String(error)] calls. *)
Definition ErrorToString (name message : string) : string :=
  if (name =? "")%string then message
  else if (message =? "")%string then name
  else name ++ ": " ++ message.

Record AxiosInstance : Type := {
  inst_baseURL : string;
  inst_headers : list (string * string);
  inst_timeout : Z
}.

Fixpoint setHeader (hs : list (string * string)) (k v : string)
  : list (string * string) :=
  match hs with
  | [] => [(k, v)]
  | (k', v') :: rest =>
      if (k' =? k)%string then (k, v) :: rest else (k', v') :: setHeader rest k v
  end.

(** The module-level variables [accessToken], [tokenExpiry], [apiClient],
    and the log of requests handed to axios, oldest first. *)
Record World : Type := {
  accessToken : JsValue;
  tokenExpiry : number;
  apiClient : option AxiosInstance;
  sent : list HttpRequest
}.

Definition initialWorld : World := {|
  accessToken := JNull;
  tokenExpiry := Num 0;
  apiClient := None;
  sent := []
|}.

(** What the process cannot decide: the clock, the upstream's answers, and
    the engine's string-to-number conversion. *)
Record Runtime : Type := {
  now : Z;
  network : HttpRequest -> AxiosResult;
  StringToNumber : string -> number
}.

(** ** The monad: state that survives a throw *)

Definition M (A : Type) : Type := World -> Result A * World.

Definition ret {A} (a : A) : M A := fun w => (Returned a, w).
Definition throw {A} (t : Thrown) : M A := fun w => (Threw t, w).
Definition bind {A B} (m : M A) (k : A -> M B) : M B :=
  fun w => match m w with
           | (Returned a, w') => k a w'
           | (Threw t, w') => (Threw t, w')
           end.
Definition tryCatch {A} (m : M A) (handler : Thrown -> M A) : M A :=
  fun w => match m w with
           | (Returned a, w') => (Returned a, w')
           | (Threw t, w') => handler t w'
           end.
Definition lift {A} (r : Result A) : M A := fun w => (r, w).

Notation "x <- m ;; k" := (bind m (fun x => k))
  (at level 61, m at next level, right associativity).
Notation "m ;;; k" := (bind m (fun _ => k))
  (at level 61, right associativity).

(** Hands a request to axios: log it, then settle as the upstream says. *)
Definition send (rt : Runtime) (r : HttpRequest) : M HttpResponse :=
  fun w =>
    let w' := {| accessToken := accessToken w; tokenExpiry := tokenExpiry w;
                 apiClient := apiClient w; sent := (sent w ++ [r])%list |} in
    match network rt r with
    | Fulfilled resp => (Returned resp, w')
    | Rejected e => (Threw (AxiosErr e), w')
    end.

(** ** Numbers *)

(** What [ToNumber] gives when it does not throw: objects and arrays are
    converted to a string first. *)
Definition numberOf (rt : Runtime) (v : JsValue) : number :=
  match v with
  | JUndefined => NaN
  | JNull => Num 0
  | JBool b => Num (if b then 1 else 0)
  | JNum n => Num n
  | JStr s => StringToNumber rt s
  | JArray _ | JObject _ => StringToNumber rt (stringOf v)
  end.

(** Multiplication and addition are exact: the numbers are integers, and
    the doubles of JavaScript compute exactly on integers up to 2^53, which
    covers every clock in milliseconds and every lifetime in seconds. *)
Definition mul (a b : number) : number :=
  match a, b with
  | Num x, Num y => Num (x * y)
  | _, _ => NaN
  end.

Definition add (a b : number) : number :=
  match a, b with
  | Num x, Num y => Num (x + y)
  | _, _ => NaN
  end.

(** [a > b]: false as soon as one side is NaN. *)
Definition gt (a b : number) : bool :=
  match a, b with
  | Num x, Num y => x >? y
  | _, _ => false
  end.

(** [v.k] where [v] may be anything: a TypeError on [null] and [undefined]. *)
Definition getProp (v : JsValue) (k : string) : Result JsValue :=
  match v with
  | JUndefined =>
      Threw (ErrorObj "TypeError"
        ("Cannot read properties of undefined (reading '" ++ k ++ "')"))
  | JNull =>
      Threw (ErrorObj "TypeError"
        ("Cannot read properties of null (reading '" ++ k ++ "')"))
  | _ => Returned (optGet v k)
  end.

(** The TypeError of a conversion to a primitive. *)
Definition cannotConvert : Thrown :=
  ErrorObj "TypeError" "Cannot convert object to primitive value".

(** [`...${v}...`]: the text of [v] handed to the rest of the template, or
    the TypeError. *)
Definition interpolate {A} (v : JsValue) (k : string -> Result A) : Result A :=
  match ToString v with
  | Some s => k s
  | None => Threw cannotConvert
  end.

(** [ToNumber], as applied by [*]: it throws where [ToString] does. *)
Definition ToNumber (rt : Runtime) (v : JsValue) : Result number :=
  if printable v then Returned (numberOf rt v) else Threw cannotConvert.

(* ===================================================================== *)
(** * The server *)
(* ===================================================================== *)

Section Server.

Variable cfg : Config.
Variable rt : Runtime.

(** ** OAuth2 token management *)

(** The client-credentials exchange, sent with the global axios. *)
Definition tokenRequest : HttpRequest := {|
  method := POST;
  baseURL := "";
  url := SAILPOINT_BASE_URL cfg ++ "/oauth/token";
  params := None;
  headers := [("Content-Type", "application/x-www-form-urlencoded")];
  data := FormBody [("grant_type", "client_credentials");
                    ("client_id", SAILPOINT_CLIENT_ID cfg);
                    ("client_secret", SAILPOINT_CLIENT_SECRET cfg)];
  timeout := None
|}.

Definition setAccessToken (v : JsValue) : M unit := fun w =>
  (Returned tt, {| accessToken := v; tokenExpiry := tokenExpiry w;
                   apiClient := apiClient w; sent := sent w |}).

Definition setTokenExpiry (n : number) : M unit := fun w =>
  (Returned tt, {| accessToken := accessToken w; tokenExpiry := n;
                   apiClient := apiClient w; sent := sent w |}).

Definition getAccessToken : M JsValue := fun w =>
  let now := now rt in
  (* Return cached token if still valid (with 60 second buffer) *)
  if truthy (accessToken w) && gt (tokenExpiry w) (Num (now + 60000)) then
    (Returned (accessToken w), w)
  else
    (* Request new token *)
    tryCatch
      (response <- send rt tokenRequest ;;
       access_token <- lift (getProp (resp_data response) "access_token") ;;
       setAccessToken access_token ;;;
       expires_in <- lift (getProp (resp_data response) "expires_in") ;;
       (* default to 12 minutes if not provided *)
       let expiresIn := or_else expires_in (JNum 720) in
       seconds <- lift (ToNumber rt expiresIn) ;;
       setTokenExpiry (add (Num now) (mul seconds (Num 1000))) ;;;
       ret access_token)
      (fun error =>
         throw (ErrorObj "Error"
                  ("Failed to obtain access token: " ++ messageOf error)))
      w.

(** ** The singleton client *)

Definition getApiClient : M AxiosInstance :=
  token <- getAccessToken ;;
  fun w =>
    (* Create singleton instance with connection pooling *)
    let client :=
      match apiClient w with
      | Some c => c
      | None => {| inst_baseURL := SAILPOINT_BASE_URL cfg;
                   inst_headers := [("Content-Type", "application/json")];
                   inst_timeout := 30000 |}
      end in
    (* Update authorization header with current token; the template throws
       before the assignment, with the singleton already in place *)
    match ToString token with
    | Some printed =>
        let client := {| inst_baseURL := inst_baseURL client;
                         inst_headers := setHeader (inst_headers client)
                                           "Authorization" ("Bearer " ++ printed);
                         inst_timeout := inst_timeout client |} in
        (Returned client,
         {| accessToken := accessToken w; tokenExpiry := tokenExpiry w;
            apiClient := Some client; sent := sent w |})
    | None =>
        (Threw cannotConvert,
         {| accessToken := accessToken w; tokenExpiry := tokenExpiry w;
            apiClient := Some client; sent := sent w |})
    end.

(** ** Formatting errors *)

(** [messages.map((m) => m.text)] *)
Fixpoint mapText (ms : list JsValue) : Result (list JsValue) :=
  match ms with
  | [] => Returned []
  | m :: rest =>
      match getProp m "text" with
      | Threw t => Threw t
      | Returned text =>
          match mapText rest with
          | Threw t => Threw t
          | Returned texts => Returned (text :: texts)
          end
      end
  end.

(** [texts.join(sep)]: the elements are converted in turn. *)
Definition joinTexts (sep : string) (texts : list JsValue) : Result string :=
  if forallb printable texts then Returned (join sep (map joinElement texts))
  else Threw cannotConvert.

Definition formatError (error : Thrown) : Result string :=
  match error with
  | AxiosErr axiosError =>
      let data := match response axiosError with
                  | Some r => resp_data r
                  | None => JUndefined
                  end in
      (* an array is always truthy: the test is Array.isArray alone *)
      match optGet data "messages" with
      | JArray ms =>
          match mapText ms with
          | Threw t => Threw t
          | Returned texts => joinTexts "; " texts
          end
      | _ =>
          if truthy (optGet data "message") then
            interpolate (or_else (optGet data "detailCode") (JStr "Error")) (fun code =>
            interpolate (optGet data "message") (fun text =>
            Returned (code ++ ": " ++ text)))
          else
            Returned ("HTTP "
                      ++ match response axiosError with
                         | Some r => NumberToString (status r)
                         | None => "undefined"
                         end
                      ++ ": " ++ message axiosError)
      end
  | ErrorObj name msg => Returned (ErrorToString name msg)
  end.

(** ** Validating credentials *)

Definition missingVars : list string :=
  let missingVars : list string := [] in
  let missingVars :=
    if (SAILPOINT_BASE_URL cfg =? "")%string
    then (missingVars ++ ["SAILPOINT_BASE_URL"])%list else missingVars in
  let missingVars :=
    if (SAILPOINT_CLIENT_ID cfg =? "")%string
    then (missingVars ++ ["SAILPOINT_CLIENT_ID"])%list else missingVars in
  let missingVars :=
    if (SAILPOINT_CLIENT_SECRET cfg =? "")%string
    then (missingVars ++ ["SAILPOINT_CLIENT_SECRET"])%list else missingVars in
  missingVars.

Definition validateCredentials : Result unit :=
  if (0 <? length missingVars)%nat then
    Threw (ErrorObj "Error"
      ("Missing required environment variables: " ++ join ", " missingVars ++ ". "
       ++ "Please set SAILPOINT_BASE_URL to your tenant API URL (e.g., https://acme.api.identitynow.com), "
       ++ "and SAILPOINT_CLIENT_ID and SAILPOINT_CLIENT_SECRET from your SailPoint tenant Personal Access Token."))
  else Returned tt.

(** ** The tool catalogue *)

(** A tool descriptor: its name, the properties of its input schema with
    their JSON type, and the required ones.  The descriptions are prose for
    the caller and are left out. *)
Record Tool : Type := tool {
  name : string;
  properties : list (string * string);
  required : list string
}.

Definition tools : list Tool := [
    (* Identities *)
    tool "list_identities"
      [("limit", "number"); ("offset", "number"); ("filters", "string"); ("sorters", "string")]
      [];
    tool "get_identity"
      [("id", "string")]
      ["id"];
    (* Accounts *)
    tool "list_accounts"
      [("limit", "number"); ("offset", "number"); ("filters", "string"); ("sorters", "string")]
      [];
    tool "get_account"
      [("id", "string")]
      ["id"];
    tool "get_account_entitlements"
      [("accountId", "string"); ("limit", "number"); ("offset", "number")]
      ["accountId"];
    tool "enable_account"
      [("id", "string")]
      ["id"];
    tool "disable_account"
      [("id", "string")]
      ["id"];
    tool "unlock_account"
      [("id", "string")]
      ["id"];
    (* Access Profiles *)
    tool "list_access_profiles"
      [("limit", "number"); ("offset", "number"); ("filters", "string"); ("sorters", "string"); ("forSubadmin", "string")]
      [];
    tool "get_access_profile"
      [("id", "string")]
      ["id"];
    tool "create_access_profile"
      [("name", "string"); ("description", "string"); ("sourceId", "string"); ("ownerId", "string"); ("entitlementIds", "array"); ("requestable", "boolean")]
      ["name"; "sourceId"; "ownerId"];
    (* Roles *)
    tool "list_roles"
      [("limit", "number"); ("offset", "number"); ("filters", "string"); ("sorters", "string"); ("forSubadmin", "string")]
      [];
    tool "get_role"
      [("id", "string")]
      ["id"];
    tool "get_role_assigned_identities"
      [("roleId", "string"); ("limit", "number"); ("offset", "number")]
      ["roleId"];
    tool "create_role"
      [("name", "string"); ("description", "string"); ("ownerId", "string"); ("accessProfileIds", "array"); ("requestable", "boolean")]
      ["name"; "ownerId"];
    (* Certifications *)
    tool "list_certifications"
      [("limit", "number"); ("offset", "number"); ("filters", "string")]
      [];
    tool "get_certification"
      [("id", "string")]
      ["id"];
    tool "list_certification_campaigns"
      [("limit", "number"); ("offset", "number"); ("filters", "string"); ("sorters", "string")]
      [];
    tool "get_certification_campaign"
      [("id", "string")]
      ["id"];
    (* Workflows *)
    tool "list_workflows"
      [("limit", "number"); ("offset", "number")]
      [];
    tool "get_workflow"
      [("id", "string")]
      ["id"];
    tool "get_workflow_executions"
      [("workflowId", "string"); ("limit", "number"); ("offset", "number")]
      ["workflowId"];
    tool "test_workflow"
      [("workflowId", "string"); ("input", "object")]
      ["workflowId"];
    (* Sources *)
    tool "list_sources"
      [("limit", "number"); ("offset", "number"); ("filters", "string"); ("sorters", "string")]
      [];
    tool "get_source"
      [("id", "string")]
      ["id"];
    (* Search *)
    tool "search"
      [("indices", "array"); ("query", "string"); ("queryType", "string"); ("sort", "array"); ("searchAfter", "array"); ("limit", "number")]
      ["indices"; "query"];
    tool "search_aggregate"
      [("indices", "array"); ("query", "string"); ("aggregationType", "string"); ("aggregationField", "string"); ("limit", "number")]
      ["indices"; "aggregationType"; "aggregationField"];
    (* Entitlements *)
    tool "list_entitlements"
      [("limit", "number"); ("offset", "number"); ("filters", "string"); ("sorters", "string")]
      [];
    tool "get_entitlement"
      [("id", "string")]
      ["id"];
    (* Access Requests *)
    tool "list_access_requests"
      [("requestedFor", "string"); ("requestedBy", "string"); ("filters", "string"); ("limit", "number"); ("offset", "number")]
      [];
    tool "create_access_request"
      [("requestedFor", "array"); ("requestedItems", "array"); ("requestType", "string")]
      ["requestedFor"; "requestedItems"];
    (* Identity Profiles *)
    tool "list_identity_profiles"
      [("limit", "number"); ("offset", "number"); ("filters", "string"); ("sorters", "string")]
      [];
    tool "get_identity_profile"
      [("id", "string")]
      ["id"];
    (* SOD Policies *)
    tool "list_sod_policies"
      [("limit", "number"); ("offset", "number"); ("filters", "string")]
      [];
    tool "get_sod_policy"
      [("id", "string")]
      ["id"];
    tool "list_sod_violations"
      [("limit", "number"); ("offset", "number")]
      []
  ].

(** ** Tool handlers *)

(** Every case of the switch awaits one call on the client and returns a
    function of the response; a case is modelled by that call and that
    function, or by what it throws while building them. *)
Inductive ApiCall : Type :=
  | ApiGet (url : string) (params : option JsObject)
  | ApiPost (url : string) (data : option JsValue) (params : option JsObject).

Definition Shaper : Type := HttpResponse -> JsValue.

(** Helper to get API path with correct version *)
Definition apiPath (path : string) : string :=
  replace path "/v3/" ("/" ++ SAILPOINT_API_VERSION cfg ++ "/").

(** [if (args.a) o.k = args.a] *)
Definition copyIf (args : JsObject) (a : string) (o : JsObject) (k : string)
  : JsObject :=
  if truthy (get args a) then set o k (get args a) else o.

(** [if (args.a !== undefined) o.k = args.a] *)
Definition copyIfDefined (args : JsObject) (a : string) (o : JsObject) (k : string)
  : JsObject :=
  match get args a with
  | JUndefined => o
  | v => set o k v
  end.

(** [(ids as string[]).map((id) => ({ id, type }))] *)
Definition refs (type : string) (ids : list JsValue) : JsValue :=
  JArray (map (fun id => JObject [("id", id); ("type", JStr type)]) ids).

(** [if (args.a) body.k = args.a.map(...)]: a truthy value that is not an
    array has no [map] to call. *)
Definition copyRefs (args : JsObject) (a : string) (type : string)
    (body : JsObject) (k : string) : Result JsObject :=
  if truthy (get args a) then
    match get args a with
    | JArray ids => Returned (set body k (refs type ids))
    | _ => Threw (ErrorObj "TypeError" ("args." ++ a ++ ".map is not a function"))
    end
  else Returned body.

Definition Case : Type := JsObject -> Result (ApiCall * Shaper).

(** The cases of the switch, in source order. *)
Definition cases : list (string * Case) := [
  (* Identities *)
  ("list_identities", fun args =>
    let params : JsObject := [] in
    let params := copyIf args "limit" params "limit" in
    let params := copyIf args "offset" params "offset" in
    let params := copyIf args "filters" params "filters" in
    let params := copyIf args "sorters" params "sorters" in
    Returned (ApiGet (apiPath "/v3/public-identities") (Some params), resp_data));

  ("get_identity", fun args =>
    interpolate (get args "id") (fun id =>
    Returned (ApiGet (apiPath ("/v3/public-identities/" ++ id)) None,
              resp_data)));

  (* Accounts *)
  ("list_accounts", fun args =>
    let params : JsObject := [] in
    let params := copyIf args "limit" params "limit" in
    let params := copyIf args "offset" params "offset" in
    let params := copyIf args "filters" params "filters" in
    let params := copyIf args "sorters" params "sorters" in
    Returned (ApiGet (apiPath "/v3/accounts") (Some params), resp_data));

  ("get_account", fun args =>
    interpolate (get args "id") (fun id =>
    Returned (ApiGet (apiPath ("/v3/accounts/" ++ id)) None,
              resp_data)));

  ("get_account_entitlements", fun args =>
    let params : JsObject := [] in
    let params := copyIf args "limit" params "limit" in
    let params := copyIf args "offset" params "offset" in
    interpolate (get args "accountId") (fun accountId =>
    Returned (ApiGet (apiPath ("/v3/accounts/" ++ accountId
                               ++ "/entitlements"))
                     (Some params),
              resp_data)));

  ("enable_account", fun args =>
    interpolate (get args "id") (fun id =>
    Returned (ApiPost (apiPath ("/v3/accounts/" ++ id ++ "/enable"))
                      None None,
              resp_data)));

  ("disable_account", fun args =>
    interpolate (get args "id") (fun id =>
    Returned (ApiPost (apiPath ("/v3/accounts/" ++ id ++ "/disable"))
                      None None,
              resp_data)));

  ("unlock_account", fun args =>
    interpolate (get args "id") (fun id =>
    Returned (ApiPost (apiPath ("/v3/accounts/" ++ id ++ "/unlock"))
                      None None,
              resp_data)));

  (* Access Profiles *)
  ("list_access_profiles", fun args =>
    let params : JsObject := [] in
    let params := copyIf args "limit" params "limit" in
    let params := copyIf args "offset" params "offset" in
    let params := copyIf args "filters" params "filters" in
    let params := copyIf args "sorters" params "sorters" in
    let params := copyIf args "forSubadmin" params "for-subadmin" in
    Returned (ApiGet (apiPath "/v3/access-profiles") (Some params), resp_data));

  ("get_access_profile", fun args =>
    interpolate (get args "id") (fun id =>
    Returned (ApiGet (apiPath ("/v3/access-profiles/" ++ id)) None,
              resp_data)));

  ("create_access_profile", fun args =>
    let body : JsObject :=
      [("name", get args "name");
       ("source", JObject [("id", get args "sourceId"); ("type", JStr "SOURCE")]);
       ("owner", JObject [("id", get args "ownerId"); ("type", JStr "IDENTITY")])] in
    let body := copyIf args "description" body "description" in
    let body := copyIfDefined args "requestable" body "requestable" in
    match copyRefs args "entitlementIds" "ENTITLEMENT" body "entitlements" with
    | Threw t => Threw t
    | Returned body =>
        Returned (ApiPost (apiPath "/v3/access-profiles") (Some (JObject body)) None,
                  resp_data)
    end);

  (* Roles *)
  ("list_roles", fun args =>
    let params : JsObject := [] in
    let params := copyIf args "limit" params "limit" in
    let params := copyIf args "offset" params "offset" in
    let params := copyIf args "filters" params "filters" in
    let params := copyIf args "sorters" params "sorters" in
    let params := copyIf args "forSubadmin" params "for-subadmin" in
    Returned (ApiGet (apiPath "/v3/roles") (Some params), resp_data));

  ("get_role", fun args =>
    interpolate (get args "id") (fun id =>
    Returned (ApiGet (apiPath ("/v3/roles/" ++ id)) None,
              resp_data)));

  ("get_role_assigned_identities", fun args =>
    let params : JsObject := [] in
    let params := copyIf args "limit" params "limit" in
    let params := copyIf args "offset" params "offset" in
    interpolate (get args "roleId") (fun roleId =>
    Returned (ApiGet (apiPath ("/v3/roles/" ++ roleId
                               ++ "/assigned-identities"))
                     (Some params),
              resp_data)));

  ("create_role", fun args =>
    let body : JsObject :=
      [("name", get args "name");
       ("owner", JObject [("id", get args "ownerId"); ("type", JStr "IDENTITY")])] in
    let body := copyIf args "description" body "description" in
    let body := copyIfDefined args "requestable" body "requestable" in
    match copyRefs args "accessProfileIds" "ACCESS_PROFILE" body "accessProfiles" with
    | Threw t => Threw t
    | Returned body =>
        Returned (ApiPost (apiPath "/v3/roles") (Some (JObject body)) None, resp_data)
    end);

  (* Certifications *)
  ("list_certifications", fun args =>
    let params : JsObject := [] in
    let params := copyIf args "limit" params "limit" in
    let params := copyIf args "offset" params "offset" in
    let params := copyIf args "filters" params "filters" in
    Returned (ApiGet (apiPath "/v3/certifications") (Some params), resp_data));

  ("get_certification", fun args =>
    interpolate (get args "id") (fun id =>
    Returned (ApiGet (apiPath ("/v3/certifications/" ++ id)) None,
              resp_data)));

  ("list_certification_campaigns", fun args =>
    let params : JsObject := [] in
    let params := copyIf args "limit" params "limit" in
    let params := copyIf args "offset" params "offset" in
    let params := copyIf args "filters" params "filters" in
    let params := copyIf args "sorters" params "sorters" in
    Returned (ApiGet (apiPath "/v3/campaigns") (Some params), resp_data));

  ("get_certification_campaign", fun args =>
    interpolate (get args "id") (fun id =>
    Returned (ApiGet (apiPath ("/v3/campaigns/" ++ id)) None,
              resp_data)));

  (* Workflows *)
  ("list_workflows", fun args =>
    let params : JsObject := [] in
    let params := copyIf args "limit" params "limit" in
    let params := copyIf args "offset" params "offset" in
    Returned (ApiGet (apiPath "/v3/workflows") (Some params), resp_data));

  ("get_workflow", fun args =>
    interpolate (get args "id") (fun id =>
    Returned (ApiGet (apiPath ("/v3/workflows/" ++ id)) None,
              resp_data)));

  ("get_workflow_executions", fun args =>
    let params : JsObject := [] in
    let params := copyIf args "limit" params "limit" in
    let params := copyIf args "offset" params "offset" in
    interpolate (get args "workflowId") (fun workflowId =>
    Returned (ApiGet (apiPath ("/v3/workflows/" ++ workflowId
                               ++ "/executions"))
                     (Some params),
              resp_data)));

  ("test_workflow", fun args =>
    interpolate (get args "workflowId") (fun workflowId =>
    Returned (ApiPost (apiPath ("/v3/workflows/" ++ workflowId
                                ++ "/test"))
                      (Some (JObject [("input", or_else (get args "input") (JObject []))]))
                      None,
              resp_data)));

  (* Sources *)
  ("list_sources", fun args =>
    let params : JsObject := [] in
    let params := copyIf args "limit" params "limit" in
    let params := copyIf args "offset" params "offset" in
    let params := copyIf args "filters" params "filters" in
    let params := copyIf args "sorters" params "sorters" in
    Returned (ApiGet (apiPath "/v3/sources") (Some params), resp_data));

  ("get_source", fun args =>
    interpolate (get args "id") (fun id =>
    Returned (ApiGet (apiPath ("/v3/sources/" ++ id)) None,
              resp_data)));

  (* Search *)
  ("search", fun args =>
    let queryObj : JsObject := [("query", get args "query")] in
    let queryObj := copyIf args "queryType" queryObj "queryType" in
    let body : JsObject :=
      [("indices", get args "indices"); ("query", JObject queryObj)] in
    let body := copyIf args "sort" body "sort" in
    let body := copyIf args "searchAfter" body "searchAfter" in
    let params : JsObject := [] in
    let params := copyIf args "limit" params "limit" in
    let params := set params "count" (JBool true) in
    Returned (ApiPost (apiPath "/v3/search") (Some (JObject body)) (Some params),
              fun response =>
                JObject [("results", resp_data response);
                         ("totalCount", get (resp_headers response) "x-total-count")]));

  ("search_aggregate", fun args =>
    let aggregationsRequest : JsObject := [("field", get args "aggregationField")] in
    let aggregationsRequest := copyIf args "limit" aggregationsRequest "size" in
    let body : JsObject :=
      [("indices", get args "indices");
       ("aggregationType", get args "aggregationType");
       ("aggregationsRequest", JObject aggregationsRequest)] in
    let body :=
      if truthy (get args "query")
      then set body "query" (JObject [("query", get args "query")])
      else body in
    Returned (ApiPost (apiPath "/v3/search/aggregate") (Some (JObject body)) None,
              resp_data));

  (* Entitlements *)
  ("list_entitlements", fun args =>
    let params : JsObject := [] in
    let params := copyIf args "limit" params "limit" in
    let params := copyIf args "offset" params "offset" in
    let params := copyIf args "filters" params "filters" in
    let params := copyIf args "sorters" params "sorters" in
    Returned (ApiGet (apiPath "/v3/entitlements") (Some params), resp_data));

  ("get_entitlement", fun args =>
    interpolate (get args "id") (fun id =>
    Returned (ApiGet (apiPath ("/v3/entitlements/" ++ id)) None,
              resp_data)));

  (* Access Requests *)
  ("list_access_requests", fun args =>
    let params : JsObject := [] in
    let params := copyIf args "requestedFor" params "requested-for" in
    let params := copyIf args "requestedBy" params "requested-by" in
    let params := copyIf args "filters" params "filters" in
    let params := copyIf args "limit" params "limit" in
    let params := copyIf args "offset" params "offset" in
    Returned (ApiGet (apiPath "/v3/access-requests") (Some params), resp_data));

  ("create_access_request", fun args =>
    let body : JsObject :=
      [("requestedFor", get args "requestedFor");
       ("requestedItems", get args "requestedItems");
       ("requestType", or_else (get args "requestType") (JStr "GRANT_ACCESS"))] in
    Returned (ApiPost (apiPath "/v3/access-requests") (Some (JObject body)) None,
              resp_data));

  (* Identity Profiles *)
  ("list_identity_profiles", fun args =>
    let params : JsObject := [] in
    let params := copyIf args "limit" params "limit" in
    let params := copyIf args "offset" params "offset" in
    let params := copyIf args "filters" params "filters" in
    let params := copyIf args "sorters" params "sorters" in
    Returned (ApiGet (apiPath "/v3/identity-profiles") (Some params), resp_data));

  ("get_identity_profile", fun args =>
    interpolate (get args "id") (fun id =>
    Returned (ApiGet (apiPath ("/v3/identity-profiles/" ++ id)) None,
              resp_data)));

  (* SOD Policies *)
  ("list_sod_policies", fun args =>
    let params : JsObject := [] in
    let params := copyIf args "limit" params "limit" in
    let params := copyIf args "offset" params "offset" in
    let params := copyIf args "filters" params "filters" in
    Returned (ApiGet (apiPath "/v3/sod-policies") (Some params), resp_data));

  ("get_sod_policy", fun args =>
    interpolate (get args "id") (fun id =>
    Returned (ApiGet (apiPath ("/v3/sod-policies/" ++ id)) None,
              resp_data)));

  ("list_sod_violations", fun args =>
    let params : JsObject := [] in
    let params := copyIf args "limit" params "limit" in
    let params := copyIf args "offset" params "offset" in
    Returned (ApiGet (apiPath "/v3/sod-violations/predicted") (Some params), resp_data))
].

(** [switch (name)]: the first case whose label equals [name], or the
    default, which throws. *)
Definition switch (name : string) (args : JsObject) : Result (ApiCall * Shaper) :=
  match find (fun c => (fst c =? name)%string) cases with
  | Some (_, body) => body args
  | None => Threw (ErrorObj "Error" ("Unknown tool: " ++ name))
  end.

(** [api.get(url, config)] and [api.post(url, data, config)] on the client. *)
Definition requestOf (api : AxiosInstance) (c : ApiCall) : HttpRequest :=
  match c with
  | ApiGet u ps =>
      {| method := GET; baseURL := inst_baseURL api; url := u; params := ps;
         headers := inst_headers api; data := NoBody;
         timeout := Some (inst_timeout api) |}
  | ApiPost u d ps =>
      {| method := POST; baseURL := inst_baseURL api; url := u; params := ps;
         headers := inst_headers api;
         data := match d with Some v => JsonBody v | None => NoBody end;
         timeout := Some (inst_timeout api) |}
  end.

(** [args] is an object, as the signature [Record<string, unknown>] says. *)
Definition handleTool (name : string) (args : JsObject) : M JsValue :=
  (* Validate credentials when a tool is actually called *)
  lift validateCredentials ;;;
  api <- getApiClient ;;
  selected <- lift (switch name args) ;;
  response <- send rt (requestOf api (fst selected)) ;;
  ret (snd selected response).

(** ** Main server setup *)

(** What [console.error] prints. *)
Inductive LogLine : Type :=
  | Line (s : string)
  | Fatal (error : Thrown).

(** What the process does at startup: its log and, if it exits, the code.
    [connect] is how attaching the stdio transport settles. *)
Definition main (connect : Result unit) : list LogLine * option Z :=
  let hasCredentials :=
    negb (SAILPOINT_BASE_URL cfg =? "")%string
    && negb (SAILPOINT_CLIENT_ID cfg =? "")%string
    && negb (SAILPOINT_CLIENT_SECRET cfg =? "")%string in
  let first :=
    if negb hasCredentials then
      Line "Warning: SailPoint credentials not configured. Set SAILPOINT_BASE_URL, SAILPOINT_CLIENT_ID, and SAILPOINT_CLIENT_SECRET environment variables."
    else Line ("SailPoint MCP Server initialized for: " ++ SAILPOINT_BASE_URL cfg) in
  match connect with
  | Returned _ => ([first; Line "SailPoint MCP Server running on stdio"], None)
  | Threw error => ([first; Fatal error], Some 1)
  end.

(** The text of a tool result: [JSON.stringify(result, null, 2)], kept
    unevaluated, or a plain string. *)
Inductive TextContent : Type :=
  | Stringified (result : JsValue)
  | Text (s : string).

Record ToolResult : Type := {
  text : TextContent;
  isError : bool
}.

(** The call-tool request handler. *)
Definition callTool (name : string) (args : JsObject) : M ToolResult :=
  tryCatch
    (result <- handleTool name args ;;
     ret {| text := Stringified result; isError := false |})
    (fun error =>
       errorMessage <- lift (formatError error) ;;
       ret {| text := Text ("Error: " ++ errorMessage); isError := true |}).

(** The list-tools request handler. *)
Definition listTools : list Tool := tools.

End Server.

(* ===================================================================== *)
(** * The documented endpoint mapping *)
(* ===================================================================== *)

(** A path of the documentation: literal text and the placeholder [{id}]. *)
Inductive Piece : Type :=
  | Lit (s : string)
  | Id.

Definition piece (id : string) (p : Piece) : string :=
  match p with
  | Lit s => s
  | Id => id
  end.

Fixpoint fill (template : list Piece) (id : string) : string :=
  match template with
  | [] => ""
  | [p] => piece id p
  | p :: rest => piece id p ++ fill rest id
  end.

(** The tables "Read Operations" and "Write Operations" of
    [docs/architecture/components.md], row by row. *)
Definition documentedEndpoints : list (string * Method * list Piece) := [
  ("list_identities", GET, [Lit "/v3/public-identities"]);
  ("get_identity", GET, [Lit "/v3/public-identities/"; Id]);
  ("list_accounts", GET, [Lit "/v3/accounts"]);
  ("get_account", GET, [Lit "/v3/accounts/"; Id]);
  ("get_account_entitlements", GET, [Lit "/v3/accounts/"; Id; Lit "/entitlements"]);
  ("list_access_profiles", GET, [Lit "/v3/access-profiles"]);
  ("get_access_profile", GET, [Lit "/v3/access-profiles/"; Id]);
  ("list_roles", GET, [Lit "/v3/roles"]);
  ("get_role", GET, [Lit "/v3/roles/"; Id]);
  ("get_role_assigned_identities", GET, [Lit "/v3/roles/"; Id; Lit "/assigned-identities"]);
  ("list_certifications", GET, [Lit "/v3/certifications"]);
  ("get_certification", GET, [Lit "/v3/certifications/"; Id]);
  ("list_certification_campaigns", GET, [Lit "/v3/campaigns"]);
  ("get_certification_campaign", GET, [Lit "/v3/campaigns/"; Id]);
  ("list_workflows", GET, [Lit "/v3/workflows"]);
  ("get_workflow", GET, [Lit "/v3/workflows/"; Id]);
  ("get_workflow_executions", GET, [Lit "/v3/workflows/"; Id; Lit "/executions"]);
  ("list_sources", GET, [Lit "/v3/sources"]);
  ("get_source", GET, [Lit "/v3/sources/"; Id]);
  ("list_entitlements", GET, [Lit "/v3/entitlements"]);
  ("get_entitlement", GET, [Lit "/v3/entitlements/"; Id]);
  ("list_access_requests", GET, [Lit "/v3/access-requests"]);
  ("list_identity_profiles", GET, [Lit "/v3/identity-profiles"]);
  ("get_identity_profile", GET, [Lit "/v3/identity-profiles/"; Id]);
  ("list_sod_policies", GET, [Lit "/v3/sod-policies"]);
  ("get_sod_policy", GET, [Lit "/v3/sod-policies/"; Id]);
  ("list_sod_violations", GET, [Lit "/v3/sod-violations/predicted"]);
  ("create_access_profile", POST, [Lit "/v3/access-profiles"]);
  ("create_role", POST, [Lit "/v3/roles"]);
  ("create_access_request", POST, [Lit "/v3/access-requests"]);
  ("enable_account", POST, [Lit "/v3/accounts/"; Id; Lit "/enable"]);
  ("disable_account", POST, [Lit "/v3/accounts/"; Id; Lit "/disable"]);
  ("unlock_account", POST, [Lit "/v3/accounts/"; Id; Lit "/unlock"]);
  ("test_workflow", POST, [Lit "/v3/workflows/"; Id; Lit "/test"]);
  ("search", POST, [Lit "/v3/search"]);
  ("search_aggregate", POST, [Lit "/v3/search/aggregate"])
].

Definition documentedNames : list string :=
  map (fun row => fst (fst row)) documentedEndpoints.

(** The argument that fills [{id}]: the first required property of the
    tool's schema in the catalogue. *)
Definition pathArgument (tool_name : string) : string :=
  match find (fun t => (name t =? tool_name)%string) tools with
  | Some t => hd "id" (required t)
  | None => "id"
  end.

Definition callMethod (c : ApiCall) : Method :=
  match c with
  | ApiGet _ _ => GET
  | ApiPost _ _ _ => POST
  end.

Definition callUrl (c : ApiCall) : string :=
  match c with
  | ApiGet u _ => u
  | ApiPost u _ _ => u
  end.

Definition callParams (c : ApiCall) : option JsObject :=
  match c with
  | ApiGet _ ps => ps
  | ApiPost _ _ ps => ps
  end.

(** A name is recognized when the switch has a case for it. *)
Definition recognized (tool_name : string) : Prop :=
  In tool_name (map name tools).

(** A configuration with every variable set, for concrete runs. *)
Definition acmeConfig : Config := {|
  SAILPOINT_BASE_URL := "https://acme.api.identitynow.com";
  SAILPOINT_CLIENT_ID := "client";
  SAILPOINT_CLIENT_SECRET := "secret";
  SAILPOINT_API_VERSION := "v3"
|}.


(* ===================================================================== *)
(** * Vocabulary of the statements *)
(* ===================================================================== *)

Definition inb (x : string) (l : list string) : bool :=
  existsb (String.eqb x) l.

Fixpoint nodupb (l : list string) : bool :=
  match l with
  | [] => true
  | x :: rest => negb (inb x rest) && nodupb rest
  end.

(** What the switch does for a documented row: the row's method on the
    row's path, with the text of the identifier argument in the
    placeholder; or one of the two TypeErrors a case can throw while it
    builds its request: a list argument of the create tools that is truthy
    and not a list, or an identifier that cannot be converted to a string. *)
Definition followsRow (cfg : Config) (tool_name : string) (m : Method)
    (template : list Piece) (args : JsObject) : Prop :=
  match switch cfg tool_name args with
  | Returned (call, _) =>
      callMethod call = m
      /\ callUrl call =
         apiPath cfg (fill template (stringOf (get args (pathArgument tool_name))))
      /\ (In Id template -> printable (get args (pathArgument tool_name)) = true)
  | Threw t =>
      (exists a,
         (tool_name = "create_access_profile" /\ a = "entitlementIds"
          \/ tool_name = "create_role" /\ a = "accessProfileIds")
         /\ truthy (get args a) = true
         /\ (forall ids, get args a <> JArray ids)
         /\ t = ErrorObj "TypeError" ("args." ++ a ++ ".map is not a function"))
      \/ (In Id template
          /\ printable (get args (pathArgument tool_name)) = false
          /\ t = cannotConvert)
  end.

(** A version selector without a dollar sign, the one character that
    [String.prototype.replace] reads specially in a replacement. *)
Fixpoint dollarFree (s : string) : bool :=
  match s with
  | EmptyString => true
  | String c rest => negb (Ascii.eqb c "$") && dollarFree rest
  end.

Definition withVersion (cfg : Config) (version : string) : Config := {|
  SAILPOINT_BASE_URL := SAILPOINT_BASE_URL cfg;
  SAILPOINT_CLIENT_ID := SAILPOINT_CLIENT_ID cfg;
  SAILPOINT_CLIENT_SECRET := SAILPOINT_CLIENT_SECRET cfg;
  SAILPOINT_API_VERSION := version
|}.

(** The path a tool call selects, if it selects one. *)
Definition selectedPath (cfg : Config) (tool_name : string) (args : JsObject)
  : option string :=
  match switch cfg tool_name args with
  | Returned (call, _) => Some (callUrl call)
  | Threw _ => None
  end.

(** The client as [getApiClient] leaves it when the token is [token]. *)
Definition clientFor (cfg : Config) (token : JsValue) : AxiosInstance := {|
  inst_baseURL := SAILPOINT_BASE_URL cfg;
  inst_headers := [("Content-Type", "application/json");
                   ("Authorization", "Bearer " ++ stringOf token)];
  inst_timeout := 30000
|}.

(** The client as [axios.create] makes it, before any bearer is set. *)
Definition createdClient (cfg : Config) : AxiosInstance := {|
  inst_baseURL := SAILPOINT_BASE_URL cfg;
  inst_headers := [("Content-Type", "application/json")];
  inst_timeout := 30000
|}.

(** The singleton, once created, is the client of some earlier token, or
    still without a bearer when no token could be printed yet. *)
Definition clientInvariant (cfg : Config) (w : World) : Prop :=
  apiClient w = None
  \/ apiClient w = Some (createdClient cfg)
  \/ exists token, apiClient w = Some (clientFor cfg token).

Definition withClient (w : World) (c : AxiosInstance) : World := {|
  accessToken := accessToken w;
  tokenExpiry := tokenExpiry w;
  apiClient := Some c;
  sent := sent w
|}.

Definition logged (w : World) (r : HttpRequest) : World := {|
  accessToken := accessToken w;
  tokenExpiry := tokenExpiry w;
  apiClient := apiClient w;
  sent := (sent w ++ [r])%list
|}.

(** An environment variable that is unset or empty. *)
Definition unset (x : option string) : bool :=
  match x with
  | None => true
  | Some s => (s =? "")%string
  end.

(** The optional arguments of a tool: the properties that are not required. *)
Definition optionalArguments (t : Tool) : list string :=
  filter (fun p => negb (inb p (required t))) (map fst (properties t)).

(** The list-style tools: those whose case sends a GET with a query object. *)
Definition listStyle (cfg : Config) (t : Tool) : bool :=
  match switch cfg (name t) [] with
  | Returned (ApiGet _ (Some _), _) => true
  | _ => false
  end.

(** The query parameter an optional argument is copied to. *)
Definition queryKey (a : string) : string :=
  if (a =? "forSubadmin")%string then "for-subadmin"
  else if (a =? "requestedFor")%string then "requested-for"
  else if (a =? "requestedBy")%string then "requested-by"
  else a.

(** ** Concrete runs *)

Definition tokenBody (access_token : string) (rest : JsObject) : JsValue :=
  JObject (("access_token", JStr access_token) :: rest).

(** An upstream that answers the token request with [body] and every
    other request with the JSON array [[1]]. *)
Definition upstream (body : JsValue) (r : HttpRequest) : AxiosResult :=
  if (url r =? "https://acme.api.identitynow.com/oauth/token")%string then
    Fulfilled {| status := 200; resp_data := body; resp_headers := [] |}
  else
    Fulfilled {| status := 200; resp_data := JArray [JNum 1]; resp_headers := [] |}.

Definition runtimeAt (t : Z) (body : JsValue) : Runtime := {|
  now := t;
  network := upstream body;
  StringToNumber := fun _ => NaN
|}.

Definition freshBody : JsValue := tokenBody "fresh" [("expires_in", JNum 3600)].

Definition cachedWorld (token : string) (expiry : Z) : World := {|
  accessToken := JStr token;
  tokenExpiry := Num expiry;
  apiClient := None;
  sent := []
|}.

(** The world after a successful exchange answered with the body [d]. *)
Definition refreshed (cfg : Config) (rt : Runtime) (w : World) (d : JsValue)
  : World := {|
  accessToken := optGet d "access_token";
  tokenExpiry :=
    add (Num (now rt))
        (mul (numberOf rt (or_else (optGet d "expires_in") (JNum 720))) (Num 1000));
  apiClient := apiClient w;
  sent := (sent w ++ [tokenRequest cfg])%list
|}.

(** The world after an exchange whose body [d] gave a token but a lifetime
    that could not be converted: the token is replaced, the expiry is not. *)
Definition halfRefreshed (cfg : Config) (w : World) (d : JsValue) : World := {|
  accessToken := optGet d "access_token";
  tokenExpiry := tokenExpiry w;
  apiClient := apiClient w;
  sent := (sent w ++ [tokenRequest cfg])%list
|}.

(** [response.data.expires_in || 720] *)
Definition lifetime (d : JsValue) : JsValue :=
  or_else (optGet d "expires_in") (JNum 720).

(** The error [getAccessToken] throws when the exchange fails with [m]. *)
Definition tokenFailure (m : string) : Thrown :=
  ErrorObj "Error" ("Failed to obtain access token: " ++ m).

(** An axios error for a response with status [st] and body [d]. *)
Definition httpError (msg : string) (st : Z) (d : JsValue) : Thrown :=
  AxiosErr {| message := msg;
              response := Some {| status := st; resp_data := d;
                                  resp_headers := [] |} |}.

Definition textMessage (s : string) : JsValue := JObject [("text", JStr s)].

(** The text of the error [validateCredentials] throws. *)
Definition missingMessage (vars : list string) : string :=
  "Missing required environment variables: " ++ join ", " vars ++ ". "
  ++ "Please set SAILPOINT_BASE_URL to your tenant API URL (e.g., https://acme.api.identitynow.com), "
  ++ "and SAILPOINT_CLIENT_ID and SAILPOINT_CLIENT_SECRET from your SailPoint tenant Personal Access Token.".

Definition credentialsWarning : string :=
  "Warning: SailPoint credentials not configured. Set SAILPOINT_BASE_URL, SAILPOINT_CLIENT_ID, and SAILPOINT_CLIENT_SECRET environment variables.".

(** The variables [validateCredentials] reports for an environment. *)
Definition unsetVars (e : ProcessEnv) : list string :=
  ((if unset (env_BASE_URL e) then ["SAILPOINT_BASE_URL"] else [])
   ++ (if unset (env_CLIENT_ID e) then ["SAILPOINT_CLIENT_ID"] else [])
   ++ (if unset (env_CLIENT_SECRET e) then ["SAILPOINT_CLIENT_SECRET"] else []))%list.

(** The request of the list-identities call with [limit] 50. *)
Definition listIdentitiesRequest (cfg : Config) (token : JsValue) : HttpRequest := {|
  method := GET;
  baseURL := SAILPOINT_BASE_URL cfg;
  url := "/" ++ SAILPOINT_API_VERSION cfg ++ "/public-identities";
  params := Some [("limit", JNum 50)];
  headers := [("Content-Type", "application/json");
              ("Authorization", "Bearer " ++ stringOf token)];
  data := NoBody;
  timeout := Some 30000
|}.

(* ===================================================================== *)
(** * Vocabulary of the further properties *)
(* ===================================================================== *)

(** [null] or [undefined]. *)
Definition isNullish (v : JsValue) : bool :=
  match v with
  | JUndefined | JNull => true
  | _ => false
  end.

(** The texts [formatError] joins: the [text] of every message. *)
Definition textsOf (ms : list JsValue) : list JsValue :=
  map (fun m => optGet m "text") ms.

(** The bodies on which [formatError] cannot finish: a messages array with
    a [null] or [undefined] element or with a text that cannot be
    converted to a string; or, without a messages array, a truthy message
    where the code (detailCode, or "Error" in its place) or the message
    itself cannot be converted. *)
Definition unformattable (d : JsValue) : Prop :=
  (exists ms,
     optGet d "messages" = JArray ms
     /\ (existsb isNullish ms = true \/ forallb printable (textsOf ms) = false))
  \/ ((forall ms, optGet d "messages" <> JArray ms)
      /\ truthy (optGet d "message") = true
      /\ (printable (or_else (optGet d "detailCode") (JStr "Error")) = false
          \/ printable (optGet d "message") = false)).

(** The cache does not pass the test of [getAccessToken] at the clock of
    [rt]: there is no truthy token, or its expiry is not more than 60
    seconds ahead. *)
Definition stale (rt : Runtime) (w : World) : bool :=
  negb (truthy (accessToken w) && gt (tokenExpiry w) (Num (now rt + 60000))).

(** One request of the front end, with the runtime it meets. *)
Record ToolCall : Type := {
  call_runtime : Runtime;
  call_name : string;
  call_args : JsObject
}.

(** The world after a sequence of tool calls. *)
Fixpoint runCalls (cfg : Config) (calls : list ToolCall) (w : World) : World :=
  match calls with
  | [] => w
  | c :: rest =>
      runCalls cfg rest
        (snd (callTool cfg (call_runtime c) (call_name c) (call_args c) w))
  end.

(** A logged request is the token exchange, or goes to the configured
    base URL with the JSON content type, the bearer header of some token
    and the 30 second timeout. *)
Definition knownRequest (cfg : Config) (r : HttpRequest) : Prop :=
  r = tokenRequest cfg
  \/ (baseURL r = SAILPOINT_BASE_URL cfg
      /\ timeout r = Some 30000
      /\ exists token,
           headers r = [("Content-Type", "application/json");
                        ("Authorization", "Bearer " ++ stringOf token)]).

Definition callBody (c : ApiCall) : option JsValue :=
  match c with
  | ApiGet _ _ => None
  | ApiPost _ d _ => d
  end.

(** The body object of a selected POST, if there is one. *)
Definition bodyFields (r : Result (ApiCall * Shaper)) : option JsObject :=
  match r with
  | Returned (ApiPost _ (Some (JObject fields)) _, _) => Some fields
  | _ => None
  end.

Definition hasCredentials (cfg : Config) : bool :=
  negb (SAILPOINT_BASE_URL cfg =? "")%string
  && negb (SAILPOINT_CLIENT_ID cfg =? "")%string
  && negb (SAILPOINT_CLIENT_SECRET cfg =? "")%string.

(* ===================================================================== *)
(** * Facts about JavaScript values *)
(* ===================================================================== *)

Lemma get_set_same (o : JsObject) (k : string) (v : JsValue) :
  get (set o k v) k = v.
Proof.
  unfold get. induction o as [|[k' v'] o IH]; simpl.
  - now rewrite String.eqb_refl.
  - destruct (k' =? k)%string eqn:E; simpl.
    + now rewrite String.eqb_refl.
    + now rewrite E.
Qed.

Lemma get_set_other (o : JsObject) (k k' : string) (v : JsValue) :
  k <> k' -> get (set o k v) k' = get o k'.
Proof.
  intros Hne. unfold get. induction o as [|[k0 v0] o IH]; simpl.
  - apply String.eqb_neq in Hne. now rewrite Hne.
  - destruct (k0 =? k)%string eqn:E; simpl.
    + apply String.eqb_eq in E. subst k0.
      apply String.eqb_neq in Hne. now rewrite Hne.
    + destruct (k0 =? k')%string; [reflexivity | exact IH].
Qed.

Lemma get_remove_same (o : JsObject) (k : string) :
  get (remove o k) k = JUndefined.
Proof.
  unfold get. induction o as [|[k' v'] o IH]; simpl; [reflexivity|].
  destruct (k' =? k)%string eqn:E; simpl; [exact IH | now rewrite E].
Qed.

Lemma get_remove_other (o : JsObject) (k k' : string) :
  k <> k' -> get (remove o k) k' = get o k'.
Proof.
  intros Hne. unfold get. induction o as [|[k0 v0] o IH]; simpl; [reflexivity|].
  destruct (k0 =? k)%string eqn:E; simpl.
  - apply String.eqb_eq in E. subst k0.
    apply String.eqb_neq in Hne. now rewrite Hne.
  - destruct (k0 =? k')%string; [reflexivity | exact IH].
Qed.

Lemma keys_set (o : JsObject) (k : string) (v : JsValue) (k' : string) :
  In k' (keys (set o k v)) <-> k' = k \/ In k' (keys o).
Proof.
  unfold keys. induction o as [|[k0 v0] o IH]; simpl.
  - intuition congruence.
  - destruct (k0 =? k)%string eqn:E; simpl.
    + apply String.eqb_eq in E. subst k0. intuition congruence.
    + rewrite IH. intuition congruence.
Qed.

(** ** Deciding membership in lists of names *)

Lemma inb_In (x : string) (l : list string) : inb x l = true <-> In x l.
Proof.
  unfold inb. rewrite existsb_exists. split.
  - intros [y [Hin Heq]]. apply String.eqb_eq in Heq. now subst.
  - intros Hin. exists x. split; [exact Hin | apply String.eqb_refl].
Qed.

Lemma nodupb_NoDup (l : list string) : nodupb l = true -> NoDup l.
Proof.
  induction l as [|x l IH]; simpl; intros H; constructor.
  - apply andb_prop in H. destruct H as [H _].
    intros Hin. apply inb_In in Hin. rewrite Hin in H. discriminate.
  - apply IH. apply andb_prop in H. tauto.
Qed.

Lemma forallb_inb_incl (l1 l2 : list string) :
  forallb (fun x => inb x l2) l1 = true -> incl l1 l2.
Proof.
  intros H x Hin. rewrite forallb_forall in H. apply inb_In. now apply H.
Qed.

(** ** The switch *)

Lemma case_names (cfg : Config) : map fst (cases cfg) = map name tools.
Proof. reflexivity. Qed.

Lemma documented_names_recognized (tool_name : string) :
  recognized tool_name <-> In tool_name documentedNames.
Proof.
  unfold recognized. split; apply forallb_inb_incl; vm_compute; reflexivity.
Qed.

Lemma switch_unknown (cfg : Config) (tool_name : string) (args : JsObject) :
  ~ recognized tool_name ->
  switch cfg tool_name args = Threw (ErrorObj "Error" ("Unknown tool: " ++ tool_name)).
Proof.
  intros Hnot. unfold switch.
  destruct (find _ (cases cfg)) as [[n body]|] eqn:F; [|reflexivity].
  exfalso. apply Hnot. unfold recognized. rewrite <- (case_names cfg).
  apply find_some in F. destruct F as [Hin Heq]. simpl in Heq.
  apply String.eqb_eq in Heq. subst n.
  apply (in_map fst) in Hin. exact Hin.
Qed.

Ltac no_placeholder :=
  let H := fresh in
  intros H; repeat (destruct H as [H|H]; [discriminate H|]); contradiction.

Ltac has_placeholder := repeat (first [left; reflexivity | right]).

Ltac solve_plain_row :=
  split; [reflexivity|]; split; [reflexivity | no_placeholder].

Ltac solve_template_row :=
  unfold interpolate, ToString;
  destruct (printable (get _ _)) eqn:Hprintable; cbn;
  [ split; [reflexivity|]; split; [reflexivity | intros _; reflexivity]
  | right; split; [has_placeholder|]; split; reflexivity ].

Ltac solve_create a :=
  unfold copyRefs;
  destruct (truthy (get _ a)) eqn:Htruthy;
  [ destruct (get _ a) eqn:Hget; cbn;
    try solve_plain_row;
    left; exists a; (split; [tauto|]); rewrite Hget;
    (split; [exact Htruthy|]); (split; [intros ids; discriminate | reflexivity])
  | cbn; solve_plain_row ].

Lemma switch_follows_row (cfg : Config) (tool_name : string) (m : Method)
    (template : list Piece) (args : JsObject) :
  In (tool_name, m, template) documentedEndpoints ->
  followsRow cfg tool_name m template args.
Proof.
  intros Hin. unfold followsRow. simpl in Hin.
  repeat (destruct Hin as [Hin|Hin];
          [ inversion Hin; subst; clear Hin; cbn;
            first [ solve_plain_row
                  | solve_template_row
                  | solve_create "entitlementIds"
                  | solve_create "accessProfileIds" ] | ]).
  contradiction.
Qed.

(** ** Running [handleTool] *)

(** Once the credentials validate and the client is obtained, a call is
    the selected request, sent once, and the shaped response. *)
Lemma handleTool_run (cfg : Config) (rt : Runtime) (tool_name : string)
    (args : JsObject) (w w1 : World) (api : AxiosInstance) :
  validateCredentials cfg = Returned tt ->
  getApiClient cfg rt w = (Returned api, w1) ->
  handleTool cfg rt tool_name args w =
    match switch cfg tool_name args with
    | Threw t => (Threw t, w1)
    | Returned (call, shape) =>
        match network rt (requestOf api call) with
        | Fulfilled resp => (Returned (shape resp), logged w1 (requestOf api call))
        | Rejected e => (Threw (AxiosErr e), logged w1 (requestOf api call))
        end
    end.
Proof.
  intros Hvalid Hclient. unfold handleTool, bind, lift.
  rewrite Hvalid, Hclient.
  destruct (switch cfg tool_name args) as [[call shape]|t]; [|reflexivity].
  unfold send, ret, logged. simpl.
  destruct (network rt (requestOf api call)); reflexivity.
Qed.

(** Missing credentials stop the call before anything else happens. *)
Lemma handleTool_invalid (cfg : Config) (rt : Runtime) (tool_name : string)
    (args : JsObject) (w : World) (t : Thrown) :
  validateCredentials cfg = Threw t ->
  handleTool cfg rt tool_name args w = (Threw t, w).
Proof.
  intros Hinvalid. unfold handleTool, bind, lift. now rewrite Hinvalid.
Qed.

(** *** The dispatch table *)

(** C1 (as amended): the catalogue and the switch know the same 36 names,
    one row of the documented table each; for every row the switch selects
    the row's method and the row's path, with [{id}] filled by the text of
    the tool's identifier argument and the version segment applied, unless
    building the request throws one of two TypeErrors (a list argument of
    create_access_profile or create_role that is truthy and not a list; an
    identifier that cannot be converted to a string), in which case nothing
    is selected; every other name reaches the default case, which throws
    "Unknown tool: <name>", and [handleTool] then fails with that error
    without a domain request. *)
Theorem C1_dispatch_table (cfg : Config) :
  (length tools = 36%nat /\ map fst (cases cfg) = map name tools
   /\ NoDup documentedNames
   /\ forall tool_name, recognized tool_name <-> In tool_name documentedNames)
  /\ (forall tool_name m template args,
        In (tool_name, m, template) documentedEndpoints ->
        followsRow cfg tool_name m template args)
  /\ (forall tool_name args,
        ~ recognized tool_name ->
        switch cfg tool_name args
          = Threw (ErrorObj "Error" ("Unknown tool: " ++ tool_name))
        /\ forall rt w w1 api,
             validateCredentials cfg = Returned tt ->
             getApiClient cfg rt w = (Returned api, w1) ->
             handleTool cfg rt tool_name args w
               = (Threw (ErrorObj "Error" ("Unknown tool: " ++ tool_name)), w1)).
Proof.
  split; [|split].
  - split; [reflexivity|]. split; [reflexivity|]. split.
    + apply nodupb_NoDup. vm_compute. reflexivity.
    + exact documented_names_recognized.
  - intros tool_name m template args Hin.
    now apply switch_follows_row.
  - intros tool_name args Hnot. split.
    + now apply switch_unknown.
    + intros rt w w1 api Hvalid Hclient.
      rewrite (handleTool_run cfg rt tool_name args w w1 api Hvalid Hclient).
      now rewrite switch_unknown.
Qed.

(** C1, the claim as stated, fails: there are no 40 distinct recognized
    tool names, the catalogue and the switch have 36; and a recognized
    tool selects no method and path when building its request throws, as
    create_role does on a list of profiles that is a string and get_role
    on an identifier that cannot be converted to a string. *)
Lemma C1_not_forty_tools :
  length tools = 36%nat /\
  length (cases acmeConfig) = 36%nat /\
  (~ exists names : list string,
       NoDup names /\ length names = 40%nat /\
       forall n, In n names ->
         forall args, switch acmeConfig n args
                      <> Threw (ErrorObj "Error" ("Unknown tool: " ++ n))) /\
  switch acmeConfig "create_role"
    [("name", JStr "Auditors"); ("ownerId", JStr "o1");
     ("accessProfileIds", JStr "ap1")]
    = Threw (ErrorObj "TypeError" "args.accessProfileIds.map is not a function") /\
  switch acmeConfig "get_role" [("id", JObject [("toString", JNum 1)])]
    = Threw (ErrorObj "TypeError" "Cannot convert object to primitive value").
Proof.
  split; [reflexivity|]. split; [reflexivity|].
  split; [|split; reflexivity].
  intros [names [Hnodup [Hlen Hall]]].
  assert (Hincl : incl names (map name tools)).
  { intros n Hin.
    destruct (in_dec string_dec n (map name tools)) as [Hyes|Hno]; [exact Hyes|].
    exfalso. apply (Hall n Hin []). now apply switch_unknown. }
  pose proof (NoDup_incl_length Hnodup Hincl) as Hle.
  rewrite Hlen in Hle. vm_compute in Hle. lia.
Qed.

Lemma C1_dispatch_table_witness :
  followsRow acmeConfig "get_role" GET [Lit "/v3/roles/"; Id] [("id", JStr "r1")]
  /\ switch acmeConfig "delete_identity" []
     = Threw (ErrorObj "Error" "Unknown tool: delete_identity").
Proof.
  destruct (C1_dispatch_table acmeConfig) as [_ [Hrows Hunknown]].
  split.
  - apply Hrows. unfold documentedEndpoints.
    do 8 right. left. reflexivity.
  - apply (Hunknown "delete_identity" []).
    unfold recognized. intros Hin. simpl in Hin.
    repeat (destruct Hin as [Hin|Hin]; [discriminate Hin|]). exact Hin.
Defined.

(** ** The token cache *)

Lemma getAccessToken_cached (cfg : Config) (rt : Runtime) (w : World) :
  truthy (accessToken w) && gt (tokenExpiry w) (Num (now rt + 60000)) = true ->
  getAccessToken cfg rt w = (Returned (accessToken w), w).
Proof.
  intros Hvalid. unfold getAccessToken. now rewrite Hvalid.
Qed.

Lemma getAccessToken_refresh (cfg : Config) (rt : Runtime) (w : World) :
  truthy (accessToken w) && gt (tokenExpiry w) (Num (now rt + 60000)) = false ->
  getAccessToken cfg rt w =
    match network rt (tokenRequest cfg) with
    | Rejected e => (Threw (tokenFailure (message e)), logged w (tokenRequest cfg))
    | Fulfilled resp =>
        match getProp (resp_data resp) "access_token" with
        | Threw t => (Threw (tokenFailure (messageOf t)), logged w (tokenRequest cfg))
        | Returned _ =>
            if printable (lifetime (resp_data resp)) then
              (Returned (optGet (resp_data resp) "access_token"),
               refreshed cfg rt w (resp_data resp))
            else
              (Threw (tokenFailure "Cannot convert object to primitive value"),
               halfRefreshed cfg w (resp_data resp))
        end
    end.
Proof.
  intros Hstale. unfold getAccessToken. rewrite Hstale.
  unfold tryCatch, bind, send, lift, throw, ret, logged, refreshed, halfRefreshed,
    tokenFailure, lifetime, ToNumber.
  destruct (network rt (tokenRequest cfg)) as [resp|e]; [|reflexivity].
  destruct (resp_data resp); try reflexivity; simpl;
    match goal with
    | |- context [printable ?v] => destruct (printable v); reflexivity
    end.
Qed.

Lemma Zgtb_false (x y : Z) : x <= y -> (x >? y) = false.
Proof. intros H. rewrite Z.gtb_ltb. now apply Z.ltb_ge. Qed.

Lemma Zgtb_true (x y : Z) : y < x -> (x >? y) = true.
Proof. intros H. rewrite Z.gtb_ltb. now apply Z.ltb_lt. Qed.

Lemma truthy_JStr (s : string) : s <> "" -> truthy (JStr s) = true.
Proof.
  intros Hne. simpl. apply String.eqb_neq in Hne. now rewrite Hne.
Qed.

Lemma app_singleton_neq {A : Type} (l : list A) (x : A) : l <> (l ++ [x])%list.
Proof.
  intros Heq. apply (f_equal (@length A)) in Heq.
  rewrite length_app in Heq. simpl in Heq. lia.
Qed.

(** C2 (as amended): a cached non-empty token whose expiry is at least 61
    seconds after now is returned as it is; the world, the log of network
    calls included, is unchanged. *)
Theorem C2_token_reuse (cfg : Config) (rt : Runtime) (w : World)
    (token : string) (expiry : Z) :
  accessToken w = JStr token ->
  token <> "" ->
  tokenExpiry w = Num expiry ->
  now rt + 61000 <= expiry ->
  getAccessToken cfg rt w = (Returned (JStr token), w)
  /\ sent (snd (getAccessToken cfg rt w)) = sent w.
Proof.
  intros Htoken Hnonempty Hexpiry Hlate.
  assert (Hrun : getAccessToken cfg rt w = (Returned (accessToken w), w)).
  { apply getAccessToken_cached. rewrite Htoken, Hexpiry.
    rewrite (truthy_JStr token Hnonempty). simpl. apply Zgtb_true. lia. }
  rewrite Hrun. simpl. now rewrite Htoken.
Qed.

Lemma C2_token_reuse_witness :
  getAccessToken acmeConfig (runtimeAt 1000000 freshBody) (cachedWorld "abc" 1061000)
    = (Returned (JStr "abc"), cachedWorld "abc" 1061000).
Proof.
  apply (C2_token_reuse acmeConfig (runtimeAt 1000000 freshBody)
           (cachedWorld "abc" 1061000) "abc" 1061000).
  - reflexivity.
  - discriminate.
  - reflexivity.
  - simpl. lia.
Defined.

(** C2, the claim as stated, fails for the empty token: cached with an
    expiry 61 seconds ahead, it is not reused; one exchange is sent and the
    cache is replaced. *)
Lemma C2_empty_token_is_refreshed :
  accessToken (cachedWorld "" 1061000) = JStr ""
  /\ tokenExpiry (cachedWorld "" 1061000)
     = Num (now (runtimeAt 1000000 freshBody) + 61000)
  /\ getAccessToken acmeConfig (runtimeAt 1000000 freshBody) (cachedWorld "" 1061000)
     = (Returned (JStr "fresh"),
        {| accessToken := JStr "fresh"; tokenExpiry := Num 4600000;
           apiClient := None; sent := [tokenRequest acmeConfig] |}).
Proof. repeat split. Qed.




(** What the expiry becomes after an exchange answered with a JSON object:
    now plus 720 seconds when expires_in is missing, now plus expires_in
    seconds when it is a non-zero number, and now plus 720 seconds again
    when it is 0.  Times are in milliseconds. *)
Lemma expiry_after_exchange (cfg : Config) (rt : Runtime) (w : World)
    (resp : HttpResponse) (fields : JsObject) :
  sent (snd (getAccessToken cfg rt w)) = (sent w ++ [tokenRequest cfg])%list ->
  network rt (tokenRequest cfg) = Fulfilled resp ->
  resp_data resp = JObject fields ->
  (lookup fields "expires_in" = None ->
   tokenExpiry (snd (getAccessToken cfg rt w)) = Num (now rt + 720 * 1000))
  /\ (forall n, lookup fields "expires_in" = Some (JNum n) -> n <> 0 ->
      tokenExpiry (snd (getAccessToken cfg rt w)) = Num (now rt + n * 1000))
  /\ (lookup fields "expires_in" = Some (JNum 0) ->
      tokenExpiry (snd (getAccessToken cfg rt w)) = Num (now rt + 720 * 1000)).
Proof.
  intros Hsent Hnet Hdata.
  destruct (truthy (accessToken w) && gt (tokenExpiry w) (Num (now rt + 60000)))
    eqn:Hcond.
  - rewrite (getAccessToken_cached cfg rt w Hcond) in Hsent. simpl in Hsent.
    exfalso. exact (app_singleton_neq _ _ Hsent).
  - rewrite (getAccessToken_refresh cfg rt w Hcond), Hnet, Hdata.
    unfold lifetime, refreshed, optGet, get. simpl getProp. cbv iota.
    repeat split.
    + intros Hnone. now rewrite Hnone.
    + intros n Hsome Hnz. rewrite Hsome. unfold or_else. simpl.
      apply Z.eqb_neq in Hnz. now rewrite Hnz.
    + intros Hzero. now rewrite Hzero.
Qed.

Example expiry_after_exchange_3600 :
  tokenExpiry (snd (getAccessToken acmeConfig (runtimeAt 1000000 freshBody) initialWorld))
    = Num (1000000 + 3600 * 1000).
Proof.
  apply (expiry_after_exchange acmeConfig (runtimeAt 1000000 freshBody) initialWorld
           {| status := 200; resp_data := freshBody; resp_headers := [] |}
           [("access_token", JStr "fresh"); ("expires_in", JNum 3600)]
           eq_refl eq_refl eq_refl).
  - reflexivity.
  - lia.
Defined.

(** C4 at expires_in = 0: the response carries the field, and the new
    expiry is now plus 720 seconds where now plus 0 seconds is called for;
    the default meant for a missing field is taken for a falsy one. *)
Lemma C4_zero_expires_in_takes_default :
  lookup [("access_token", JStr "t"); ("expires_in", JNum 0)] "expires_in"
    = Some (JNum 0)
  /\ tokenExpiry (snd (getAccessToken acmeConfig
                         (runtimeAt 1000000 (tokenBody "t" [("expires_in", JNum 0)]))
                         initialWorld))
     = Num (1000000 + 720 * 1000)
  /\ tokenExpiry (snd (getAccessToken acmeConfig
                         (runtimeAt 1000000 (tokenBody "t" [("expires_in", JNum 0)]))
                         initialWorld))
     <> Num (1000000 + 0 * 1000).
Proof. repeat split. discriminate. Qed.

(** ** The error formatter *)




Lemma formatError_detail (msg : string) (st : Z) (fields : JsObject) :
  (forall ms, get fields "messages" <> JArray ms) ->
  truthy (get fields "message") = true ->
  printable (or_else (get fields "detailCode") (JStr "Error")) = true ->
  printable (get fields "message") = true ->
  formatError (httpError msg st (JObject fields))
    = Returned (stringOf (or_else (get fields "detailCode") (JStr "Error"))
                ++ ": " ++ stringOf (get fields "message")).
Proof.
  intros Hno Hmessage Hcode Htext. unfold formatError, interpolate, ToString. simpl.
  rewrite Hmessage, Hcode, Htext.
  destruct (get fields "messages") eqn:Hm; try reflexivity.
  exfalso. exact (Hno xs eq_refl).
Qed.





(** ** The client *)

Lemma getAccessToken_apiClient (cfg : Config) (rt : Runtime) (w : World) :
  apiClient (snd (getAccessToken cfg rt w)) = apiClient w.
Proof.
  destruct (truthy (accessToken w) && gt (tokenExpiry w) (Num (now rt + 60000)))
    eqn:Hcond.
  - now rewrite (getAccessToken_cached cfg rt w Hcond).
  - rewrite (getAccessToken_refresh cfg rt w Hcond).
    destruct (network rt (tokenRequest cfg)) as [resp|e]; [|reflexivity].
    destruct (getProp (resp_data resp) "access_token"); [|reflexivity].
    destruct (printable (lifetime (resp_data resp))); reflexivity.
Qed.

(** With a token in hand that can be printed, the client carries the base
    URL, the JSON content type and the bearer header of that token. *)
Lemma getApiClient_run (cfg : Config) (rt : Runtime) (w w1 : World)
    (token : JsValue) :
  clientInvariant cfg w ->
  getAccessToken cfg rt w = (Returned token, w1) ->
  printable token = true ->
  getApiClient cfg rt w
    = (Returned (clientFor cfg token), withClient w1 (clientFor cfg token)).
Proof.
  intros Hinv Htoken Hprintable.
  pose proof (getAccessToken_apiClient cfg rt w) as Hsame.
  rewrite Htoken in Hsame. simpl in Hsame.
  unfold getApiClient, bind, ToString. rewrite Htoken, Hprintable, Hsame.
  destruct Hinv as [Hnone | [Hcreated | [token0 Hsome]]].
  - rewrite Hnone. reflexivity.
  - rewrite Hcreated. reflexivity.
  - rewrite Hsome. reflexivity.
Qed.

(** A token that cannot be printed: the call throws with the singleton in
    place and its headers as they were. *)
Lemma getApiClient_unprintable (cfg : Config) (rt : Runtime) (w w1 : World)
    (token : JsValue) :
  getAccessToken cfg rt w = (Returned token, w1) ->
  printable token = false ->
  getApiClient cfg rt w
    = (Threw cannotConvert,
       withClient w1 (match apiClient w with
                      | Some c => c
                      | None => createdClient cfg
                      end)).
Proof.
  intros Htoken Hprintable.
  pose proof (getAccessToken_apiClient cfg rt w) as Hsame.
  rewrite Htoken in Hsame. simpl in Hsame.
  unfold getApiClient, bind, ToString. rewrite Htoken, Hprintable, Hsame.
  reflexivity.
Qed.

(** The invariant holds initially and after every call. *)
Lemma clientInvariant_initial (cfg : Config) : clientInvariant cfg initialWorld.
Proof. now left. Qed.

Lemma clientInvariant_getApiClient (cfg : Config) (rt : Runtime) (w : World) :
  clientInvariant cfg w ->
  clientInvariant cfg (snd (getApiClient cfg rt w)).
Proof.
  intros Hinv.
  destruct (getAccessToken cfg rt w) as [[token|t] w1] eqn:Htoken.
  - destruct (printable token) eqn:Hprintable.
    + rewrite (getApiClient_run cfg rt w w1 token Hinv Htoken Hprintable).
      right. right. now exists token.
    + rewrite (getApiClient_unprintable cfg rt w w1 token Htoken Hprintable).
      unfold clientInvariant. simpl.
      destruct Hinv as [Hnone | [Hcreated | [token0 Hsome]]].
      * rewrite Hnone. right. now left.
      * rewrite Hcreated. right. now left.
      * rewrite Hsome. right. right. now exists token0.
  - pose proof (getAccessToken_apiClient cfg rt w) as Hsame.
    rewrite Htoken in Hsame. simpl in Hsame.
    unfold getApiClient, bind. rewrite Htoken. simpl.
    unfold clientInvariant. now rewrite Hsame.
Qed.

Lemma clientInvariant_handleTool (cfg : Config) (rt : Runtime)
    (tool_name : string) (args : JsObject) (w : World) :
  clientInvariant cfg w ->
  clientInvariant cfg (snd (handleTool cfg rt tool_name args w)).
Proof.
  intros Hinv. unfold handleTool, bind, lift.
  destruct (validateCredentials cfg); [|exact Hinv].
  pose proof (clientInvariant_getApiClient cfg rt w Hinv) as Hnext.
  destruct (getApiClient cfg rt w) as [[api|t] w1]; simpl in Hnext; [|exact Hnext].
  destruct (switch cfg tool_name args) as [selected|t]; [|exact Hnext].
  unfold send, ret.
  destruct (network rt (requestOf api (fst selected))); exact Hnext.
Qed.

(** ** The version segment *)

Lemma append_assoc (a b c : string) : ((a ++ b) ++ c = a ++ (b ++ c))%string.
Proof.
  induction a as [|x a IH]; simpl; [reflexivity | now rewrite IH].
Qed.

Lemma dollarFree_app (a b : string) :
  dollarFree (a ++ b) = dollarFree a && dollarFree b.
Proof.
  induction a as [|x a IH]; simpl; [reflexivity|].
  rewrite IH. now rewrite andb_assoc.
Qed.

Lemma GetSubstitution_dollarFree (matched before after template : string) :
  dollarFree template = true ->
  GetSubstitution matched before after template = template.
Proof.
  induction template as [|c rest IH]; simpl; [reflexivity|].
  intros Hfree. apply andb_prop in Hfree. destruct Hfree as [Hc Hrest].
  apply negb_true_iff in Hc. rewrite Hc. now rewrite IH.
Qed.

Lemma splitFirst_v3 (rest : string) :
  splitFirst "/v3/" ("/v3/" ++ rest) = Some ("", rest).
Proof. reflexivity. Qed.

Lemma replace_v3 (rest replacement : string) :
  replace ("/v3/" ++ rest) "/v3/" replacement
    = GetSubstitution "/v3/" "" rest replacement ++ rest.
Proof.
  unfold replace. now rewrite splitFirst_v3.
Qed.

(** On a path under [/v3/] the helper swaps that first segment. *)
Lemma apiPath_dollarFree (cfg : Config) (rest : string) :
  dollarFree (SAILPOINT_API_VERSION cfg) = true ->
  apiPath cfg ("/v3/" ++ rest) = "/" ++ SAILPOINT_API_VERSION cfg ++ "/" ++ rest.
Proof.
  intros Hfree. unfold apiPath. rewrite replace_v3.
  rewrite GetSubstitution_dollarFree.
  - simpl. now rewrite append_assoc.
  - simpl. rewrite dollarFree_app, Hfree. reflexivity.
Qed.

(** *** The list-identities scenario *)

(** With valid credentials, list-identities called with limit 50 and
    offset 0 sends, after a token that prints is obtained, the request
    GET {base}/{version}/public-identities with the one query parameter
    limit=50 and the bearer header of the token, and returns the upstream
    body unchanged. *)
Lemma list_identities_request (cfg : Config) (rt : Runtime) (w w1 : World)
    (token : JsValue) (resp : HttpResponse) :
  validateCredentials cfg = Returned tt ->
  dollarFree (SAILPOINT_API_VERSION cfg) = true ->
  clientInvariant cfg w ->
  getAccessToken cfg rt w = (Returned token, w1) ->
  printable token = true ->
  network rt (listIdentitiesRequest cfg token) = Fulfilled resp ->
  handleTool cfg rt "list_identities" [("limit", JNum 50); ("offset", JNum 0)] w
    = (Returned (resp_data resp),
       logged (withClient w1 (clientFor cfg token)) (listIdentitiesRequest cfg token)).
Proof.
  intros Hvalid Hfree Hinv Htoken Hprintable Hnet.
  rewrite (handleTool_run cfg rt _ _ w _ _ Hvalid
             (getApiClient_run cfg rt w w1 token Hinv Htoken Hprintable)).
  assert (Hswitch :
            switch cfg "list_identities" [("limit", JNum 50); ("offset", JNum 0)]
            = Returned (ApiGet (apiPath cfg ("/v3/" ++ "public-identities"))
                               (Some [("limit", JNum 50)]), resp_data))
    by reflexivity.
  rewrite Hswitch, (apiPath_dollarFree cfg _ Hfree).
  change (requestOf (clientFor cfg token)
            (ApiGet ("/" ++ SAILPOINT_API_VERSION cfg ++ "/" ++ "public-identities")
                    (Some [("limit", JNum 50)])))
    with (listIdentitiesRequest cfg token).
  now rewrite Hnet.
Qed.

Example list_identities_request_acme :
  handleTool acmeConfig (runtimeAt 1000000 freshBody) "list_identities"
    [("limit", JNum 50); ("offset", JNum 0)] initialWorld
  = (Returned (JArray [JNum 1]),
     logged (withClient (refreshed acmeConfig (runtimeAt 1000000 freshBody)
                           initialWorld freshBody)
               (clientFor acmeConfig (JStr "fresh")))
            (listIdentitiesRequest acmeConfig (JStr "fresh"))).
Proof.
  apply (list_identities_request acmeConfig (runtimeAt 1000000 freshBody) initialWorld
           (refreshed acmeConfig (runtimeAt 1000000 freshBody) initialWorld freshBody)
           (JStr "fresh")
           {| status := 200; resp_data := JArray [JNum 1]; resp_headers := [] |}).
  - reflexivity.
  - reflexivity.
  - left. reflexivity.
  - reflexivity.
  - reflexivity.
  - reflexivity.
Defined.

(** C5 at {limit: 50, offset: 0}: after the token exchange the one request
    sent is the GET on /v3/public-identities with the bearer header, and
    its query parameters are limit=50 alone; offset=0 is not sent. *)
Lemma C5_offset_zero_is_not_sent :
  sent (snd (handleTool acmeConfig (runtimeAt 1000000 freshBody)
               "list_identities" [("limit", JNum 50); ("offset", JNum 0)]
               initialWorld))
  = [tokenRequest acmeConfig; listIdentitiesRequest acmeConfig (JStr "fresh")]
  /\ params (listIdentitiesRequest acmeConfig (JStr "fresh"))
     = Some [("limit", JNum 50)]
  /\ fst (handleTool acmeConfig (runtimeAt 1000000 freshBody)
            "list_identities" [("limit", JNum 50); ("offset", JNum 0)]
            initialWorld)
     = Returned (JArray [JNum 1]).
Proof. repeat split. Qed.

(** ** Missing configuration *)

Lemma envOr_empty (x : option string) : (envOr x "" =? "")%string = unset x.
Proof.
  destruct x as [s|]; simpl; [|reflexivity].
  destruct (s =? "")%string eqn:E; [reflexivity | exact E].
Qed.

Lemma missingVars_loadConfig (e : ProcessEnv) :
  missingVars (loadConfig e) = unsetVars e.
Proof.
  unfold missingVars, unsetVars, loadConfig. simpl.
  rewrite !envOr_empty.
  destruct (unset (env_BASE_URL e)), (unset (env_CLIENT_ID e)),
    (unset (env_CLIENT_SECRET e)); reflexivity.
Qed.

Lemma validateCredentials_missing (cfg : Config) :
  missingVars cfg <> [] ->
  validateCredentials cfg = Threw (ErrorObj "Error" (missingMessage (missingVars cfg))).
Proof.
  intros Hmissing. unfold validateCredentials, missingMessage.
  destruct (missingVars cfg); [contradiction | reflexivity].
Qed.

(** C7: when the base URL, the client id or the client secret is unset or
    empty, every tool call fails with the error that lists exactly the
    missing variables, by name and in order; the world is untouched, so no
    request was made; the front end reports the error as text; and startup
    logs the warning, attaches the transport and does not exit. *)
Theorem C7_missing_configuration (e : ProcessEnv) (rt : Runtime)
    (tool_name : string) (args : JsObject) (w : World) :
  unset (env_BASE_URL e) || unset (env_CLIENT_ID e) || unset (env_CLIENT_SECRET e)
    = true ->
  missingVars (loadConfig e) = unsetVars e
  /\ (In "SAILPOINT_BASE_URL" (unsetVars e) <-> unset (env_BASE_URL e) = true)
  /\ (In "SAILPOINT_CLIENT_ID" (unsetVars e) <-> unset (env_CLIENT_ID e) = true)
  /\ (In "SAILPOINT_CLIENT_SECRET" (unsetVars e) <-> unset (env_CLIENT_SECRET e) = true)
  /\ handleTool (loadConfig e) rt tool_name args w
     = (Threw (ErrorObj "Error" (missingMessage (unsetVars e))), w)
  /\ callTool (loadConfig e) rt tool_name args w
     = (Returned {| text := Text ("Error: Error: " ++ missingMessage (unsetVars e));
                    isError := true |}, w)
  /\ main (loadConfig e) (Returned tt)
     = ([Line credentialsWarning; Line "SailPoint MCP Server running on stdio"], None).
Proof.
  intros Hunset.
  assert (Hmissing : missingVars (loadConfig e) <> []).
  { rewrite missingVars_loadConfig. unfold unsetVars.
    destruct (unset (env_BASE_URL e)), (unset (env_CLIENT_ID e)),
      (unset (env_CLIENT_SECRET e)); simpl in *; discriminate. }
  assert (Hcall : handleTool (loadConfig e) rt tool_name args w
                  = (Threw (ErrorObj "Error" (missingMessage (unsetVars e))), w)).
  { rewrite <- missingVars_loadConfig.
    apply handleTool_invalid. now apply validateCredentials_missing. }
  split; [apply missingVars_loadConfig|].
  split; [|split; [|split; [|split; [|split]]]].
  - unfold unsetVars.
    destruct (unset (env_BASE_URL e)), (unset (env_CLIENT_ID e)),
      (unset (env_CLIENT_SECRET e)); simpl;
      intuition (try discriminate; try congruence).
  - unfold unsetVars.
    destruct (unset (env_BASE_URL e)), (unset (env_CLIENT_ID e)),
      (unset (env_CLIENT_SECRET e)); simpl;
      intuition (try discriminate; try congruence).
  - unfold unsetVars.
    destruct (unset (env_BASE_URL e)), (unset (env_CLIENT_ID e)),
      (unset (env_CLIENT_SECRET e)); simpl;
      intuition (try discriminate; try congruence).
  - exact Hcall.
  - unfold callTool, tryCatch, bind. rewrite Hcall. reflexivity.
  - unfold main, loadConfig. simpl. rewrite !envOr_empty.
    destruct (unset (env_BASE_URL e)), (unset (env_CLIENT_ID e)),
      (unset (env_CLIENT_SECRET e)); simpl in *; try discriminate; reflexivity.
Qed.

Lemma C7_missing_configuration_witness :
  handleTool
    (loadConfig {| env_BASE_URL := None; env_CLIENT_ID := Some "client";
                   env_CLIENT_SECRET := Some ""; env_API_VERSION := None |})
    (runtimeAt 1000000 freshBody) "list_roles" [] initialWorld
  = (Threw (ErrorObj "Error"
              (missingMessage ["SAILPOINT_BASE_URL"; "SAILPOINT_CLIENT_SECRET"])),
     initialWorld).
Proof.
  apply (C7_missing_configuration
           {| env_BASE_URL := None; env_CLIENT_ID := Some "client";
              env_CLIENT_SECRET := Some ""; env_API_VERSION := None |}
           (runtimeAt 1000000 freshBody) "list_roles" [] initialWorld).
  reflexivity.
Defined.

(** ** Version substitution *)

Ltac split_copyRefs a :=
  unfold copyRefs;
  destruct (truthy (get _ a)); [destruct (get _ a)|]; cbn.

Ltac split_template :=
  unfold interpolate, ToString;
  destruct (printable (get _ _)); cbn.

Ltac solve_version Hfree :=
  cbn;
  first [ exact I
        | split;
          [ reflexivity
          | intros Hfree; eexists; split; [reflexivity|];
            cbn; rewrite GetSubstitution_dollarFree
              by (rewrite dollarFree_app, Hfree; reflexivity);
            cbn; now rewrite append_assoc ] ].

(** C8: for every recognized tool, the path selected under a version
    selector is the path selected under the baseline selector v3 with
    [replace("/v3/", "/<version>/")] applied to it; when the selector has no
    dollar sign this is the baseline path with its leading [/v3/] replaced
    by [/<version>/], whatever the arguments contain. *)
Theorem C8_version_substitution (cfg : Config) (version tool_name : string)
    (args : JsObject) :
  recognized tool_name ->
  match selectedPath (withVersion cfg "v3") tool_name args,
        selectedPath (withVersion cfg version) tool_name args with
  | Some baseline, Some alternate =>
      alternate = replace baseline "/v3/" ("/" ++ version ++ "/")
      /\ (dollarFree version = true ->
          exists rest,
            baseline = "/v3/" ++ rest /\ alternate = "/" ++ version ++ "/" ++ rest)
  | None, None => True
  | _, _ => False
  end.
Proof.
  intros Hin. unfold recognized in Hin. simpl in Hin.
  unfold selectedPath.
  repeat (destruct Hin as [Hin|Hin];
          [ subst tool_name;
            first [ solve_version Hfree
                  | cbn; split_template; solve_version Hfree
                  | cbn; split_copyRefs "entitlementIds"; solve_version Hfree
                  | cbn; split_copyRefs "accessProfileIds"; solve_version Hfree ]
          | ]).
  contradiction.
Qed.

Lemma C8_version_substitution_witness :
  recognized "get_account"
  /\ match selectedPath (withVersion acmeConfig "v3") "get_account"
                        [("id", JStr "a/v3/b")],
           selectedPath (withVersion acmeConfig "v2025") "get_account"
                        [("id", JStr "a/v3/b")] with
     | Some baseline, Some alternate =>
         alternate = replace baseline "/v3/" ("/" ++ "v2025" ++ "/")
         /\ (dollarFree "v2025" = true ->
             exists rest,
               baseline = "/v3/" ++ rest
               /\ alternate = "/" ++ "v2025" ++ "/" ++ rest)
     | None, None => True
     | _, _ => False
     end.
Proof.
  assert (Hin : recognized "get_account").
  { unfold recognized. simpl. do 3 right. left. reflexivity. }
  split; [exact Hin|].
  exact (C8_version_substitution acmeConfig "v2025" "get_account"
           [("id", JStr "a/v3/b")] Hin).
Defined.

(** The baseline and the v2025 paths of a call, and what a selector with a
    dollar sign does to the replacement. *)
Example version_paths :
  selectedPath (withVersion acmeConfig "v3") "get_account" [("id", JStr "a/v3/b")]
    = Some "/v3/accounts/a/v3/b"
  /\ selectedPath (withVersion acmeConfig "v2025") "get_account" [("id", JStr "a/v3/b")]
     = Some "/v2025/accounts/a/v3/b"
  /\ selectedPath (withVersion acmeConfig "$&") "list_roles" []
     = Some "//v3//roles".
Proof. repeat split. Qed.

(** ** Request bodies *)

Lemma lookup_get (o : JsObject) (k : string) (v : JsValue) :
  lookup o k = Some v -> get o k = v.
Proof. intros H. unfold get. now rewrite H. Qed.

Lemma lookup_none_get (o : JsObject) (k : string) :
  lookup o k = None -> get o k = JUndefined.
Proof. intros H. unfold get. now rewrite H. Qed.

(** C9: create-access-request called with requestedFor and requestedItems
    and without requestType selects a POST on the access-requests path
    whose body carries the two arguments unchanged and requestType
    GRANT_ACCESS; with valid credentials and a client, that is the request
    sent. *)
Theorem C9_create_access_request (cfg : Config) (args : JsObject)
    (requestedFor requestedItems : JsValue) :
  lookup args "requestedFor" = Some requestedFor ->
  lookup args "requestedItems" = Some requestedItems ->
  lookup args "requestType" = None ->
  let body :=
    JObject [("requestedFor", requestedFor);
             ("requestedItems", requestedItems);
             ("requestType", JStr "GRANT_ACCESS")] in
  switch cfg "create_access_request" args
    = Returned (ApiPost (apiPath cfg "/v3/access-requests") (Some body) None,
                resp_data)
  /\ forall rt w w1 api,
       validateCredentials cfg = Returned tt ->
       getApiClient cfg rt w = (Returned api, w1) ->
       sent (snd (handleTool cfg rt "create_access_request" args w))
         = (sent w1 ++ [{| method := POST; baseURL := inst_baseURL api;
                           url := apiPath cfg "/v3/access-requests";
                           params := None; headers := inst_headers api;
                           data := JsonBody body;
                           timeout := Some (inst_timeout api) |}])%list.
Proof.
  intros Hfor Hitems Htype body.
  assert (Hswitch :
            switch cfg "create_access_request" args
            = Returned (ApiPost (apiPath cfg "/v3/access-requests") (Some body) None,
                        resp_data)).
  { unfold switch. simpl find. cbv beta iota.
    rewrite (lookup_get _ _ _ Hfor), (lookup_get _ _ _ Hitems),
      (lookup_none_get _ _ Htype).
    reflexivity. }
  split; [exact Hswitch|].
  intros rt w w1 api Hvalid Hclient.
  rewrite (handleTool_run cfg rt _ args w w1 api Hvalid Hclient), Hswitch.
  simpl requestOf.
  match goal with |- context [network rt ?r] => destruct (network rt r) end;
    reflexivity.
Qed.

Lemma C9_create_access_request_witness :
  switch acmeConfig "create_access_request"
    [("requestedFor", JArray [JStr "id1"]);
     ("requestedItems",
      JArray [JObject [("type", JStr "ROLE"); ("id", JStr "r1")]])]
  = Returned
      (ApiPost "/v3/access-requests"
         (Some (JObject
                  [("requestedFor", JArray [JStr "id1"]);
                   ("requestedItems",
                    JArray [JObject [("type", JStr "ROLE"); ("id", JStr "r1")]]);
                   ("requestType", JStr "GRANT_ACCESS")]))
         None,
       resp_data).
Proof.
  apply (C9_create_access_request acmeConfig
           [("requestedFor", JArray [JStr "id1"]);
            ("requestedItems",
             JArray [JObject [("type", JStr "ROLE"); ("id", JStr "r1")]])]
           (JArray [JStr "id1"])
           (JArray [JObject [("type", JStr "ROLE"); ("id", JStr "r1")]])
           eq_refl eq_refl eq_refl).
Defined.

(** ** Truthiness decides presence *)

Lemma copyIf_set_falsy (args : JsObject) (a : string) (v : JsValue)
    (o : JsObject) (k : string) :
  truthy v = false -> copyIf (set args a v) a o k = o.
Proof.
  intros Hfalsy. unfold copyIf. now rewrite get_set_same, Hfalsy.
Qed.

Lemma copyIf_remove_same (args : JsObject) (a : string) (o : JsObject) (k : string) :
  copyIf (remove args a) a o k = o.
Proof.
  unfold copyIf. now rewrite get_remove_same.
Qed.

Lemma copyIf_set_other (args : JsObject) (a b : string) (v : JsValue)
    (o : JsObject) (k : string) :
  a <> b -> copyIf (set args a v) b o k = copyIf args b o k.
Proof.
  intros Hne. unfold copyIf. now rewrite get_set_other.
Qed.

Lemma copyIf_remove_other (args : JsObject) (a b : string)
    (o : JsObject) (k : string) :
  a <> b -> copyIf (remove args a) b o k = copyIf args b o k.
Proof.
  intros Hne. unfold copyIf. now rewrite get_remove_other.
Qed.

Lemma keys_copyIf (args : JsObject) (a : string) (o : JsObject) (k k' : string) :
  In k' (keys (copyIf args a o k))
  <-> (k' = k /\ truthy (get args a) = true) \/ In k' (keys o).
Proof.
  unfold copyIf. destruct (truthy (get args a)).
  - rewrite keys_set. tauto.
  - intuition discriminate.
Qed.

(** Rewrites the argument reads of a case body from [set args a v] and
    [remove args a] to [args]. *)
Ltac forget_argument Hfalsy :=
  rewrite ?(copyIf_set_falsy _ _ _ _ _ Hfalsy), ?copyIf_remove_same;
  repeat rewrite copyIf_set_other by discriminate;
  repeat rewrite copyIf_remove_other by discriminate;
  repeat rewrite get_set_other by discriminate;
  repeat rewrite get_remove_other by discriminate.

Ltac enter_case :=
  unfold switch;
  cbv beta iota zeta
      delta [find cases fst snd name String.eqb Ascii.eqb Bool.eqb].

Ltac enter_row :=
  unfold switch;
  cbv beta iota zeta
      delta [find cases fst snd name String.eqb Ascii.eqb Bool.eqb
             pathArgument tools required hd].

Ltac presence_by_truthiness :=
  eexists; eexists; split; [reflexivity|];
  rewrite !keys_copyIf; cbn;
  intuition (try discriminate; try congruence).

(** C10: for every list-style tool and every optional argument of its
    schema, a call that supplies a falsy value for the argument selects the
    same request as the call without the argument; and in every request a
    list-style tool selects, the argument's query parameter is present
    exactly when the argument's value is truthy.  (Such a tool selects no
    request only when its path identifier cannot be converted to a
    string.) *)
Theorem C10_falsy_is_absent (cfg : Config) (t : Tool) (a : string) :
  In t tools ->
  listStyle cfg t = true ->
  In a (optionalArguments t) ->
  (forall args v,
     truthy v = false ->
     switch cfg (name t) (set args a v) = switch cfg (name t) (remove args a))
  /\ (forall args,
        match switch cfg (name t) args with
        | Returned (call, _) =>
            exists url ps,
              call = ApiGet url (Some ps)
              /\ (In (queryKey a) (keys ps) <-> truthy (get args a) = true)
        | Threw error =>
            error = cannotConvert
            /\ printable (get args (pathArgument (name t))) = false
        end).
Proof.
  intros Htool Hstyle Harg. simpl in Htool.
  repeat (destruct Htool as [Htool|Htool];
          [ subst t; first
              [ discriminate Hstyle
              | clear Hstyle; cbn in Harg;
                repeat (destruct Harg as [Harg|Harg];
                        [ subst a; split;
                          [ intros args v Hfalsy; enter_case;
                            forget_argument Hfalsy; reflexivity
                          | intros args; enter_row;
                            first
                              [ presence_by_truthiness
                              | unfold interpolate, ToString;
                                destruct (printable (get args _)) eqn:Hprintable;
                                [ presence_by_truthiness | split; reflexivity ] ] ]
                        | ]);
                contradiction ]
          | ]).
  contradiction.
Qed.

Lemma C10_falsy_is_absent_witness :
  switch acmeConfig "list_identities"
    (set [("limit", JNum 50)] "offset" (JNum 0))
  = switch acmeConfig "list_identities" (remove [("limit", JNum 50)] "offset").
Proof.
  destruct (C10_falsy_is_absent acmeConfig
              (tool "list_identities"
                 [("limit", "number"); ("offset", "number");
                  ("filters", "string"); ("sorters", "string")] [])
              "offset") as [Hsame _].
  - left. reflexivity.
  - reflexivity.
  - right. left. reflexivity.
  - apply (Hsame [("limit", JNum 50)] (JNum 0)). reflexivity.
Defined.

(** The list-style tools, and the three falsy values on one of them. *)
Example list_style_tools :
  map name (filter (listStyle acmeConfig) tools)
  = ["list_identities"; "list_accounts"; "get_account_entitlements";
     "list_access_profiles"; "list_roles"; "get_role_assigned_identities";
     "list_certifications"; "list_certification_campaigns"; "list_workflows";
     "get_workflow_executions"; "list_sources"; "list_entitlements";
     "list_access_requests"; "list_identity_profiles"; "list_sod_policies";
     "list_sod_violations"].
Proof. reflexivity. Qed.

Example falsy_arguments_are_dropped :
  option_map (fun c => callParams (fst c))
    (match switch acmeConfig "list_access_requests"
             [("requestedFor", JStr ""); ("limit", JNum 0);
              ("offset", JBool false); ("filters", JStr "status eq 1")] with
     | Returned c => Some c
     | Threw _ => None
     end)
  = Some (Some [("filters", JStr "status eq 1")]).
Proof. reflexivity. Qed.

(* ===================================================================== *)
(** * Further properties of the token cache *)
(* ===================================================================== *)

Lemma stale_condition (rt : Runtime) (w : World) :
  stale rt w = true ->
  truthy (accessToken w) && gt (tokenExpiry w) (Num (now rt + 60000)) = false.
Proof. unfold stale. intros H. now apply negb_true_iff in H. Qed.

Lemma fresh_condition (rt : Runtime) (w : World) :
  stale rt w = false ->
  truthy (accessToken w) && gt (tokenExpiry w) (Num (now rt + 60000)) = true.
Proof. unfold stale. intros H. now apply negb_false_iff in H. Qed.

(** A stale cache stays stale as the clock advances. *)
Lemma stale_later (rt rt' : Runtime) (w : World) :
  stale rt w = true -> now rt <= now rt' -> stale rt' w = true.
Proof.
  unfold stale. intros Hstale Hlater.
  apply negb_true_iff in Hstale. apply negb_true_iff.
  apply andb_false_iff in Hstale. apply andb_false_iff.
  destruct Hstale as [Hfalsy | Hexpired]; [now left | right].
  destruct (tokenExpiry w) as [expiry|]; [|reflexivity].
  simpl in *. rewrite Z.gtb_ltb in *.
  apply Z.ltb_ge in Hexpired. apply Z.ltb_ge. lia.
Qed.

Lemma stale_exchange (cfg : Config) (rt : Runtime) (w : World) :
  stale rt w = true ->
  sent (snd (getAccessToken cfg rt w)) = (sent w ++ [tokenRequest cfg])%list.
Proof.
  intros Hstale.
  rewrite (getAccessToken_refresh cfg rt w (stale_condition rt w Hstale)).
  destruct (network rt (tokenRequest cfg)) as [resp|e]; [|reflexivity].
  destruct (getProp (resp_data resp) "access_token"); [|reflexivity].
  destruct (printable (lifetime (resp_data resp))); reflexivity.
Qed.

(** A failed exchange is reported as "Failed to obtain access token: ..."
    with the axios message, leaves the cached token and expiry as they
    were, is not retried within the call, and is not remembered: the next
    call, at the same or a later clock, sends the exchange again. *)
Theorem token_failure_is_not_cached (cfg : Config) (rt rt' : Runtime)
    (w : World) (e : AxiosError) :
  stale rt w = true ->
  network rt (tokenRequest cfg) = Rejected e ->
  now rt <= now rt' ->
  getAccessToken cfg rt w
    = (Threw (ErrorObj "Error" ("Failed to obtain access token: " ++ message e)),
       logged w (tokenRequest cfg))
  /\ accessToken (snd (getAccessToken cfg rt w)) = accessToken w
  /\ tokenExpiry (snd (getAccessToken cfg rt w)) = tokenExpiry w
  /\ sent (snd (getAccessToken cfg rt' (snd (getAccessToken cfg rt w))))
     = (sent w ++ [tokenRequest cfg; tokenRequest cfg])%list.
Proof.
  intros Hstale Hnet Hlater.
  assert (Hrun : getAccessToken cfg rt w
                 = (Threw (tokenFailure (message e)), logged w (tokenRequest cfg))).
  { rewrite (getAccessToken_refresh cfg rt w (stale_condition rt w Hstale)).
    now rewrite Hnet. }
  rewrite Hrun. simpl. repeat split.
  rewrite stale_exchange.
  - simpl. now rewrite <- app_assoc.
  - apply (stale_later rt rt'); [|exact Hlater]. exact Hstale.
Qed.

Lemma token_failure_is_not_cached_witness :
  getAccessToken acmeConfig
    {| now := 5; network := fun _ => Rejected {| message := "timeout of 30000ms exceeded";
                                                 response := None |};
       StringToNumber := fun _ => NaN |}
    initialWorld
  = (Threw (ErrorObj "Error"
              "Failed to obtain access token: timeout of 30000ms exceeded"),
     logged initialWorld (tokenRequest acmeConfig)).
Proof.
  apply (token_failure_is_not_cached acmeConfig
           {| now := 5; network := fun _ => Rejected {| message := "timeout of 30000ms exceeded";
                                                        response := None |};
              StringToNumber := fun _ => NaN |}
           (runtimeAt 6 freshBody) initialWorld
           {| message := "timeout of 30000ms exceeded"; response := None |}).
  - reflexivity.
  - reflexivity.
  - simpl. lia.
Defined.

(** The world after an exchange answered with a non-empty token and a
    non-zero lifetime of [n] seconds. *)
Lemma refresh_with_lifetime (cfg : Config) (rt : Runtime) (w : World)
    (resp : HttpResponse) (token : string) (n : Z) :
  stale rt w = true ->
  network rt (tokenRequest cfg) = Fulfilled resp ->
  optGet (resp_data resp) "access_token" = JStr token ->
  optGet (resp_data resp) "expires_in" = JNum n ->
  n <> 0 ->
  getAccessToken cfg rt w
    = (Returned (JStr token),
       {| accessToken := JStr token; tokenExpiry := Num (now rt + n * 1000);
          apiClient := apiClient w;
          sent := (sent w ++ [tokenRequest cfg])%list |}).
Proof.
  intros Hstale Hnet Htoken Hexpires Hnz.
  rewrite (getAccessToken_refresh cfg rt w (stale_condition rt w Hstale)), Hnet.
  destruct (resp_data resp) eqn:Hdata; try discriminate Htoken.
  unfold getProp, refreshed, lifetime. rewrite Htoken, Hexpires.
  unfold or_else. simpl. apply Z.eqb_neq in Hnz. now rewrite Hnz.
Qed.

(** A token obtained with a lifetime of [n] seconds is served from the
    cache, without any network call, by every later call whose clock is
    more than 60 seconds before [now + n] seconds. *)
Theorem refreshed_token_is_reused (cfg : Config) (rt rt' : Runtime) (w : World)
    (resp : HttpResponse) (token : string) (n : Z) :
  stale rt w = true ->
  network rt (tokenRequest cfg) = Fulfilled resp ->
  optGet (resp_data resp) "access_token" = JStr token ->
  token <> "" ->
  optGet (resp_data resp) "expires_in" = JNum n ->
  n <> 0 ->
  now rt' + 60000 < now rt + n * 1000 ->
  getAccessToken cfg rt' (snd (getAccessToken cfg rt w))
    = (Returned (JStr token), snd (getAccessToken cfg rt w)).
Proof.
  intros Hstale Hnet Htoken Hnonempty Hexpires Hnz Hearly.
  rewrite (refresh_with_lifetime cfg rt w resp token n) by assumption.
  simpl. apply getAccessToken_cached. simpl.
  apply String.eqb_neq in Hnonempty. rewrite Hnonempty. simpl.
  apply Zgtb_true. lia.
Qed.

Lemma refreshed_token_is_reused_witness :
  getAccessToken acmeConfig (runtimeAt 4539999 JNull)
    (snd (getAccessToken acmeConfig (runtimeAt 1000000 freshBody) initialWorld))
  = (Returned (JStr "fresh"),
     snd (getAccessToken acmeConfig (runtimeAt 1000000 freshBody) initialWorld)).
Proof.
  apply (refreshed_token_is_reused acmeConfig (runtimeAt 1000000 freshBody)
           (runtimeAt 4539999 JNull) initialWorld
           {| status := 200; resp_data := freshBody; resp_headers := [] |}
           "fresh" 3600).
  - reflexivity.
  - reflexivity.
  - reflexivity.
  - discriminate.
  - reflexivity.
  - lia.
  - simpl. lia.
Defined.

(** A token issued with a lifetime of 60 seconds or less, other than 0,
    never passes the 60-second buffer: every later call, however soon,
    exchanges again.  (A lifetime of 0 is replaced by the default of 720
    seconds, and that token is reused.) *)
Theorem short_lived_token_is_never_reused (cfg : Config) (rt rt' : Runtime)
    (w : World) (resp : HttpResponse) (token : string) (n : Z) :
  stale rt w = true ->
  network rt (tokenRequest cfg) = Fulfilled resp ->
  optGet (resp_data resp) "access_token" = JStr token ->
  optGet (resp_data resp) "expires_in" = JNum n ->
  n <> 0 ->
  n <= 60 ->
  now rt <= now rt' ->
  sent (snd (getAccessToken cfg rt' (snd (getAccessToken cfg rt w))))
    = (sent w ++ [tokenRequest cfg; tokenRequest cfg])%list.
Proof.
  intros Hstale Hnet Htoken Hexpires Hnz Hshort Hlater.
  rewrite (refresh_with_lifetime cfg rt w resp token n) by assumption.
  simpl. rewrite stale_exchange.
  - simpl. now rewrite <- app_assoc.
  - unfold stale. simpl. rewrite Zgtb_false by lia.
    now rewrite andb_false_r.
Qed.

Lemma short_lived_token_is_never_reused_witness :
  sent (snd (getAccessToken acmeConfig
               (runtimeAt 1000000 (tokenBody "brief" [("expires_in", JNum 60)]))
               (snd (getAccessToken acmeConfig
                       (runtimeAt 1000000 (tokenBody "brief" [("expires_in", JNum 60)]))
                       initialWorld))))
  = [tokenRequest acmeConfig; tokenRequest acmeConfig].
Proof.
  apply (short_lived_token_is_never_reused acmeConfig
           (runtimeAt 1000000 (tokenBody "brief" [("expires_in", JNum 60)]))
           (runtimeAt 1000000 (tokenBody "brief" [("expires_in", JNum 60)]))
           initialWorld
           {| status := 200;
              resp_data := tokenBody "brief" [("expires_in", JNum 60)];
              resp_headers := [] |}
           "brief" 60).
  - reflexivity.
  - reflexivity.
  - reflexivity.
  - reflexivity.
  - lia.
  - lia.
  - simpl. lia.
Defined.

Lemma getAccessToken_sent (cfg : Config) (rt : Runtime) (w : World) :
  sent (snd (getAccessToken cfg rt w)) = sent w
  \/ sent (snd (getAccessToken cfg rt w)) = (sent w ++ [tokenRequest cfg])%list.
Proof.
  destruct (stale rt w) eqn:Hstale.
  - right. now apply stale_exchange.
  - left. now rewrite (getAccessToken_cached cfg rt w (fresh_condition rt w Hstale)).
Qed.

(** Whatever the cache and the upstream, [getAccessToken] sends nothing or
    the one token request, never touches the client, and a value it
    returns is the value the cache then holds.  When it throws, it throws
    "Failed to obtain access token: ..." and the expiry is as it was; the
    token is as it was too, except after a fulfilled exchange whose
    lifetime could not be converted, which leaves the new token in the
    cache under the old expiry. *)
Theorem getAccessToken_frame (cfg : Config) (rt : Runtime) (w : World) :
  (sent (snd (getAccessToken cfg rt w)) = sent w
   \/ sent (snd (getAccessToken cfg rt w)) = (sent w ++ [tokenRequest cfg])%list)
  /\ apiClient (snd (getAccessToken cfg rt w)) = apiClient w
  /\ (forall token,
        fst (getAccessToken cfg rt w) = Returned token ->
        accessToken (snd (getAccessToken cfg rt w)) = token)
  /\ (forall t,
        fst (getAccessToken cfg rt w) = Threw t ->
        tokenExpiry (snd (getAccessToken cfg rt w)) = tokenExpiry w
        /\ (exists m, t = ErrorObj "Error" ("Failed to obtain access token: " ++ m))
        /\ (accessToken (snd (getAccessToken cfg rt w)) = accessToken w
            \/ exists resp,
                 network rt (tokenRequest cfg) = Fulfilled resp
                 /\ printable (lifetime (resp_data resp)) = false
                 /\ accessToken (snd (getAccessToken cfg rt w))
                    = optGet (resp_data resp) "access_token")).
Proof.
  destruct (stale rt w) eqn:Hstale.
  - rewrite (getAccessToken_refresh cfg rt w (stale_condition rt w Hstale)).
    destruct (network rt (tokenRequest cfg)) as [resp|e] eqn:Hnet.
    + destruct (getProp (resp_data resp) "access_token") as [token0|t0] eqn:Hprop.
      * destruct (printable (lifetime (resp_data resp))) eqn:Hlifetime; simpl.
        -- split; [now right|]. split; [reflexivity|].
           split; [intros token H; now inversion H | intros t H; discriminate H].
        -- split; [now right|]. split; [reflexivity|].
           split; [intros token H; discriminate H|].
           intros t H. inversion H. split; [reflexivity|].
           split; [eexists; reflexivity|].
           right. exists resp. now repeat split.
      * simpl. split; [now right|]. split; [reflexivity|].
        split; [intros token H; discriminate H|].
        intros t H. inversion H. split; [reflexivity|].
        split; [eexists; reflexivity | now left].
    + simpl. split; [now right|]. split; [reflexivity|].
      split; [intros token H; discriminate H|].
      intros t H. inversion H. split; [reflexivity|].
      split; [eexists; reflexivity | now left].
  - rewrite (getAccessToken_cached cfg rt w (fresh_condition rt w Hstale)). simpl.
    split; [now left|]. split; [reflexivity|].
    split; [intros token H; now inversion H | intros t H; discriminate H].
Qed.

(* ===================================================================== *)
(** * Further properties of tool calls *)
(* ===================================================================== *)

(** A call with valid credentials, step by step. *)
Lemma handleTool_valid (cfg : Config) (rt : Runtime) (tool_name : string)
    (args : JsObject) (w : World) :
  validateCredentials cfg = Returned tt ->
  clientInvariant cfg w ->
  handleTool cfg rt tool_name args w =
    match getAccessToken cfg rt w with
    | (Threw t, w1) => (Threw t, w1)
    | (Returned token, w1) =>
        if printable token then
          match switch cfg tool_name args with
          | Threw t => (Threw t, withClient w1 (clientFor cfg token))
          | Returned (call, shape) =>
              match network rt (requestOf (clientFor cfg token) call) with
              | Fulfilled resp =>
                  (Returned (shape resp),
                   logged (withClient w1 (clientFor cfg token))
                          (requestOf (clientFor cfg token) call))
              | Rejected e =>
                  (Threw (AxiosErr e),
                   logged (withClient w1 (clientFor cfg token))
                          (requestOf (clientFor cfg token) call))
              end
          end
        else
          (Threw cannotConvert,
           withClient w1 (match apiClient w with
                          | Some c => c
                          | None => createdClient cfg
                          end))
    end.
Proof.
  intros Hvalid Hinv.
  destruct (getAccessToken cfg rt w) as [[token|t] w1] eqn:Htoken.
  - destruct (printable token) eqn:Hprintable.
    + exact (handleTool_run cfg rt tool_name args w _ _ Hvalid
               (getApiClient_run cfg rt w w1 token Hinv Htoken Hprintable)).
    + unfold handleTool, bind, lift. rewrite Hvalid.
      now rewrite (getApiClient_unprintable cfg rt w w1 token Htoken Hprintable).
  - unfold handleTool, getApiClient, bind, lift.
    now rewrite Hvalid, Htoken.
Qed.

Lemma callTool_world (cfg : Config) (rt : Runtime) (tool_name : string)
    (args : JsObject) (w : World) :
  snd (callTool cfg rt tool_name args w) = snd (handleTool cfg rt tool_name args w).
Proof.
  unfold callTool, tryCatch, bind, lift, ret.
  destruct (handleTool cfg rt tool_name args w) as [[result|error] w1];
    [reflexivity|].
  destruct (formatError error); reflexivity.
Qed.

Lemma validateCredentials_cases (cfg : Config) :
  validateCredentials cfg = Returned tt
  \/ exists t, validateCredentials cfg = Threw t.
Proof.
  unfold validateCredentials.
  destruct (0 <? length (missingVars cfg))%nat; [right; eexists|left]; reflexivity.
Qed.

Lemma knownRequest_client (cfg : Config) (token : JsValue) (call : ApiCall) :
  knownRequest cfg (requestOf (clientFor cfg token) call).
Proof.
  right. destruct call; simpl; repeat split; now exists token.
Qed.

(** One call adds to the log, in this order, at most the token exchange
    and at most one request through the client, the one the switch
    selected; a call that returns has sent that request. *)
Theorem handleTool_sends_at_most_two (cfg : Config) (rt : Runtime)
    (tool_name : string) (args : JsObject) (w : World) :
  clientInvariant cfg w ->
  exists exchange domain,
    sent (snd (handleTool cfg rt tool_name args w))
      = (sent w ++ exchange ++ domain)%list
    /\ (exchange = [] \/ exchange = [tokenRequest cfg])
    /\ (domain = []
        \/ exists token call shape,
             switch cfg tool_name args = Returned (call, shape)
             /\ domain = [requestOf (clientFor cfg token) call])
    /\ (forall result,
          fst (handleTool cfg rt tool_name args w) = Returned result ->
          domain <> []).
Proof.
  intros Hinv.
  destruct (validateCredentials_cases cfg) as [Hvalid | [t Hinvalid]].
  - rewrite (handleTool_valid cfg rt tool_name args w Hvalid Hinv).
    pose proof (getAccessToken_sent cfg rt w) as Hsent.
    destruct (getAccessToken cfg rt w) as [[token|t] w1]; simpl in Hsent.
    + destruct (printable token).
      * destruct (switch cfg tool_name args) as [[call shape]|t] eqn:Hswitch.
        -- destruct (network rt (requestOf (clientFor cfg token) call)); simpl;
             destruct Hsent as [Hsent|Hsent]; rewrite Hsent;
             [ exists [], [requestOf (clientFor cfg token) call]
             | exists [tokenRequest cfg], [requestOf (clientFor cfg token) call]
             | exists [], [requestOf (clientFor cfg token) call]
             | exists [tokenRequest cfg], [requestOf (clientFor cfg token) call] ];
             (split; [now rewrite <- ?app_assoc|]);
             (split; [tauto|]);
             (split; [right; now exists token, call, shape | intros; discriminate]).
        -- simpl. destruct Hsent as [Hsent|Hsent]; rewrite Hsent;
             [ exists [], [] | exists [tokenRequest cfg], [] ];
             (split; [now rewrite ?app_nil_r|]);
             (split; [tauto|]); (split; [now left | intros; discriminate]).
      * simpl. destruct Hsent as [Hsent|Hsent]; rewrite Hsent;
          [ exists [], [] | exists [tokenRequest cfg], [] ];
          (split; [now rewrite ?app_nil_r|]);
          (split; [tauto|]); (split; [now left | intros; discriminate]).
    + simpl. destruct Hsent as [Hsent|Hsent]; rewrite Hsent;
        [ exists [], [] | exists [tokenRequest cfg], [] ];
        (split; [now rewrite ?app_nil_r|]);
        (split; [tauto|]); (split; [now left | intros; discriminate]).
  - rewrite (handleTool_invalid cfg rt tool_name args w t Hinvalid).
    exists [], []. simpl. rewrite app_nil_r.
    repeat split; try tauto. intros; discriminate.
Qed.

Lemma handleTool_sends_at_most_two_witness :
  exists exchange domain,
    sent (snd (handleTool acmeConfig (runtimeAt 1000000 freshBody) "get_role"
                 [("id", JStr "r1")] initialWorld))
      = ([] ++ exchange ++ domain)%list
    /\ (exchange = [] \/ exchange = [tokenRequest acmeConfig])
    /\ (domain = []
        \/ exists token call shape,
             switch acmeConfig "get_role" [("id", JStr "r1")] = Returned (call, shape)
             /\ domain = [requestOf (clientFor acmeConfig token) call])
    /\ (forall result,
          fst (handleTool acmeConfig (runtimeAt 1000000 freshBody) "get_role"
                 [("id", JStr "r1")] initialWorld) = Returned result ->
          domain <> []).
Proof.
  apply (handleTool_sends_at_most_two acmeConfig (runtimeAt 1000000 freshBody)
           "get_role" [("id", JStr "r1")] initialWorld).
  left. reflexivity.
Defined.

Lemma handleTool_known (cfg : Config) (rt : Runtime) (tool_name : string)
    (args : JsObject) (w : World) :
  clientInvariant cfg w ->
  Forall (knownRequest cfg) (sent w) ->
  Forall (knownRequest cfg) (sent (snd (handleTool cfg rt tool_name args w))).
Proof.
  intros Hinv Hlog.
  destruct (validateCredentials_cases cfg) as [Hvalid | [t Hinvalid]].
  - rewrite (handleTool_valid cfg rt tool_name args w Hvalid Hinv).
    assert (Htoken : Forall (knownRequest cfg) (sent (snd (getAccessToken cfg rt w)))).
    { destruct (getAccessToken_sent cfg rt w) as [Hsame|Hmore].
      - now rewrite Hsame.
      - rewrite Hmore. apply Forall_app. split; [exact Hlog|].
        constructor; [now left | constructor]. }
    destruct (getAccessToken cfg rt w) as [[token|t] w1]; simpl in Htoken;
      [|exact Htoken].
    destruct (printable token); [|exact Htoken].
    destruct (switch cfg tool_name args) as [[call shape]|t]; [|exact Htoken].
    destruct (network rt (requestOf (clientFor cfg token) call)); simpl;
      (apply Forall_app; split;
       [exact Htoken | constructor; [apply knownRequest_client | constructor]]).
  - now rewrite (handleTool_invalid cfg rt tool_name args w t Hinvalid).
Qed.

(** The invariant of the running server: after any sequence of tool calls
    from the initial state, the client is absent, or is the client as it
    was created (no Authorization header yet: the only token obtained so
    far could not be written into the header), or is the client of some
    token; and every request ever sent is the token exchange or a request
    to the configured base URL with the JSON content type, a bearer header
    and the 30 second timeout. *)
Theorem reachable_worlds (cfg : Config) (calls : list ToolCall) :
  clientInvariant cfg (runCalls cfg calls initialWorld)
  /\ Forall (knownRequest cfg) (sent (runCalls cfg calls initialWorld)).
Proof.
  assert (Hstep : forall rt tool_name args w,
            clientInvariant cfg w /\ Forall (knownRequest cfg) (sent w) ->
            clientInvariant cfg (snd (callTool cfg rt tool_name args w))
            /\ Forall (knownRequest cfg) (sent (snd (callTool cfg rt tool_name args w)))).
  { intros rt tool_name args w [Hinv Hlog]. rewrite callTool_world.
    split; [now apply clientInvariant_handleTool | now apply handleTool_known]. }
  assert (Hall : forall w,
            clientInvariant cfg w /\ Forall (knownRequest cfg) (sent w) ->
            clientInvariant cfg (runCalls cfg calls w)
            /\ Forall (knownRequest cfg) (sent (runCalls cfg calls w))).
  { induction calls as [|c calls IH]; intros w Hw; simpl; [exact Hw|].
    apply IH. now apply Hstep. }
  apply Hall. split; [now left | constructor].
Qed.

(* ===================================================================== *)
(** * Further properties of the error formatter *)
(* ===================================================================== *)

Lemma getProp_nullish (v : JsValue) (k : string) :
  isNullish v = true -> exists m, getProp v k = Threw (ErrorObj "TypeError" m).
Proof.
  destruct v; simpl; try discriminate; intros _; eexists; reflexivity.
Qed.

Lemma getProp_defined (v : JsValue) (k : string) :
  isNullish v = false -> getProp v k = Returned (optGet v k).
Proof.
  destruct v; simpl; try discriminate; reflexivity.
Qed.

Lemma mapText_defined (ms : list JsValue) :
  existsb isNullish ms = false ->
  mapText ms = Returned (textsOf ms).
Proof.
  induction ms as [|m ms IH]; simpl; [reflexivity|].
  intros H. apply orb_false_iff in H. destruct H as [Hm Hms].
  now rewrite (getProp_defined m "text" Hm), (IH Hms).
Qed.

Lemma mapText_nullish (ms : list JsValue) :
  existsb isNullish ms = true ->
  exists m, mapText ms = Threw (ErrorObj "TypeError" m).
Proof.
  induction ms as [|m ms IH]; simpl; [discriminate|].
  destruct (isNullish m) eqn:Hm; simpl.
  - intros _. destruct (getProp_nullish m "text" Hm) as [msg Hthrow].
    exists msg. now rewrite Hthrow.
  - intros Hms. rewrite (getProp_defined m "text" Hm).
    destruct (IH Hms) as [msg Hthrow]. exists msg. now rewrite Hthrow.
Qed.

(** What [formatError] does with the body of a response, case by case. *)
Lemma formatError_body (e : AxiosError) (resp : HttpResponse) :
  response e = Some resp ->
  formatError (AxiosErr e) =
    match optGet (resp_data resp) "messages" with
    | JArray ms =>
        match mapText ms with
        | Threw t => Threw t
        | Returned texts => joinTexts "; " texts
        end
    | _ =>
        if truthy (optGet (resp_data resp) "message") then
          if printable (or_else (optGet (resp_data resp) "detailCode") (JStr "Error"))
          then
            if printable (optGet (resp_data resp) "message") then
              Returned (stringOf (or_else (optGet (resp_data resp) "detailCode")
                                          (JStr "Error"))
                        ++ ": " ++ stringOf (optGet (resp_data resp) "message"))
            else Threw cannotConvert
          else Threw cannotConvert
        else Returned ("HTTP " ++ NumberToString (status resp) ++ ": " ++ message e)
    end.
Proof.
  intros Hresp. unfold formatError, interpolate, ToString. rewrite Hresp.
  destruct (optGet (resp_data resp) "messages"); try reflexivity;
    destruct (truthy (optGet (resp_data resp) "message")); try reflexivity;
    destruct (printable (or_else (optGet (resp_data resp) "detailCode")
                                 (JStr "Error"))); try reflexivity;
    destruct (printable (optGet (resp_data resp) "message")); reflexivity.
Qed.

Lemma detail_throws (d : JsValue) (fallback : string) (t : Thrown) :
  (forall ms, optGet d "messages" <> JArray ms) ->
  (if truthy (optGet d "message") then
     if printable (or_else (optGet d "detailCode") (JStr "Error")) then
       if printable (optGet d "message") then
         Returned (stringOf (or_else (optGet d "detailCode") (JStr "Error"))
                   ++ ": " ++ stringOf (optGet d "message"))
       else Threw cannotConvert
     else Threw cannotConvert
   else Returned fallback) = Threw t ->
  unformattable d /\ t = cannotConvert.
Proof.
  intros Hno Hthrow.
  destruct (truthy (optGet d "message")) eqn:Hmessage; [|discriminate Hthrow].
  destruct (printable (or_else (optGet d "detailCode") (JStr "Error"))) eqn:Hcode.
  - destruct (printable (optGet d "message")) eqn:Htext; [discriminate Hthrow|].
    inversion Hthrow. split; [|reflexivity].
    right. split; [exact Hno|]. split; [exact Hmessage | now right].
  - inversion Hthrow. split; [|reflexivity].
    right. split; [exact Hno|]. split; [exact Hmessage | now left].
Qed.

Lemma formatError_throws (error : Thrown) (t : Thrown) :
  formatError error = Threw t ->
  exists e resp m,
    error = AxiosErr e /\ response e = Some resp
    /\ unformattable (resp_data resp)
    /\ t = ErrorObj "TypeError" m.
Proof.
  intros Hthrow. destruct error as [e|name msg]; [|discriminate Hthrow].
  destruct (response e) as [resp|] eqn:Hresp.
  - rewrite (formatError_body e resp Hresp) in Hthrow.
    exists e, resp.
    destruct (optGet (resp_data resp) "messages") eqn:Hmessages;
      try (apply detail_throws in Hthrow;
           [ destruct Hthrow as [Hbad Ht];
             exists "Cannot convert object to primitive value";
             split; [reflexivity|]; split; [exact Hresp|]; split; [exact Hbad | exact Ht]
           | intros ms; rewrite Hmessages; discriminate ]).
    destruct (existsb isNullish xs) eqn:Hnull.
    + destruct (mapText_nullish xs Hnull) as [m Hm]. rewrite Hm in Hthrow.
      inversion Hthrow. exists m.
      split; [reflexivity|]. split; [exact Hresp|]. split; [|reflexivity].
      left. exists xs. tauto.
    + rewrite (mapText_defined xs Hnull) in Hthrow. unfold joinTexts in Hthrow.
      destruct (forallb printable (textsOf xs)) eqn:Hprintable;
        [discriminate Hthrow|].
      inversion Hthrow. eexists.
      split; [reflexivity|]. split; [exact Hresp|]. split; [|reflexivity].
      left. exists xs. tauto.
  - unfold formatError in Hthrow. rewrite Hresp in Hthrow. simpl in Hthrow.
    discriminate Hthrow.
Qed.

Lemma unformattable_throws (e : AxiosError) (resp : HttpResponse) :
  response e = Some resp ->
  unformattable (resp_data resp) ->
  exists t, formatError (AxiosErr e) = Threw t.
Proof.
  intros Hresp Hbad. rewrite (formatError_body e resp Hresp).
  destruct Hbad as [[ms [Hmessages [Hnull | Htexts]]] | [Hno [Hmessage [Hcode | Htext]]]].
  - rewrite Hmessages. destruct (mapText_nullish ms Hnull) as [m Hm].
    rewrite Hm. now eexists.
  - rewrite Hmessages. destruct (existsb isNullish ms) eqn:Hnull.
    + destruct (mapText_nullish ms Hnull) as [m Hm]. rewrite Hm. now eexists.
    + rewrite (mapText_defined ms Hnull). unfold joinTexts. rewrite Htexts.
      now eexists.
  - destruct (optGet (resp_data resp) "messages") eqn:Hm;
      try (rewrite Hmessage, Hcode; now eexists).
    exfalso. exact (Hno xs eq_refl).
  - destruct (optGet (resp_data resp) "messages") eqn:Hm;
      try (rewrite Hmessage, Htext;
           destruct (printable (or_else (optGet (resp_data resp) "detailCode")
                                        (JStr "Error"))); now eexists).
    exfalso. exact (Hno xs eq_refl).
Qed.

(** [formatError] itself throws exactly on the axios errors whose response
    body it cannot finish (a messages array with a [null] or [undefined]
    element or an unconvertible text; a truthy message whose code or text
    is unconvertible), and what it throws is a TypeError.  It never throws
    on an error without a response or on an [Error] object. *)
Theorem formatError_throws_iff (error : Thrown) :
  ((exists t, formatError error = Threw t)
   <-> exists e resp,
         error = AxiosErr e /\ response e = Some resp
         /\ unformattable (resp_data resp))
  /\ forall t, formatError error = Threw t -> exists m, t = ErrorObj "TypeError" m.
Proof.
  split; [split|].
  - intros [t Hthrow].
    destruct (formatError_throws error t Hthrow)
      as [e [resp [m [He [Hresp [Hbad _]]]]]].
    now exists e, resp.
  - intros [e [resp [He [Hresp Hbad]]]]. subst error.
    now apply (unformattable_throws e resp).
  - intros t Hthrow.
    destruct (formatError_throws error t Hthrow)
      as [e [resp [m [_ [_ [_ Ht]]]]]].
    now exists m.
Qed.

(** A [messages] array without [null] or [undefined] elements, all of
    whose texts can be converted to a string, is rendered as the texts of
    its elements joined by "; ", an element without a text counting as the
    empty string; the empty array gives the empty string.  The body's
    message, detailCode and the status play no part. *)
Theorem formatError_messages_list (e : AxiosError) (resp : HttpResponse)
    (ms : list JsValue) :
  response e = Some resp ->
  optGet (resp_data resp) "messages" = JArray ms ->
  existsb isNullish ms = false ->
  forallb printable (textsOf ms) = true ->
  formatError (AxiosErr e)
    = Returned (join "; " (map (fun m => joinElement (optGet m "text")) ms)).
Proof.
  intros Hresp Hmessages Hdefined Hprintable.
  rewrite (formatError_body e resp Hresp), Hmessages, (mapText_defined ms Hdefined).
  unfold joinTexts. rewrite Hprintable. unfold textsOf. now rewrite map_map.
Qed.

Lemma formatError_messages_list_witness :
  formatError (httpError "Request failed with status code 400" 400
                 (JObject [("messages", JArray [JObject []; textMessage "B"; JStr "c"]);
                           ("message", JStr "ignored")]))
  = Returned "; B; ".
Proof.
  apply (formatError_messages_list
           {| message := "Request failed with status code 400";
              response := Some {| status := 400;
                                  resp_data :=
                                    JObject [("messages",
                                              JArray [JObject []; textMessage "B"; JStr "c"]);
                                             ("message", JStr "ignored")];
                                  resp_headers := [] |} |}
           _ [JObject []; textMessage "B"; JStr "c"] eq_refl eq_refl eq_refl eq_refl).
Defined.

(** An error body with a message and no usable detailCode (missing, empty,
    null, 0 or false) is rendered as "Error: <message>". *)
Theorem formatError_without_code (msg : string) (st : Z) (fields : JsObject)
    (text : string) :
  (forall ms, get fields "messages" <> JArray ms) ->
  get fields "message" = JStr text ->
  text <> "" ->
  truthy (get fields "detailCode") = false ->
  formatError (httpError msg st (JObject fields)) = Returned ("Error: " ++ text).
Proof.
  intros Hno Hmessage Hnonempty Hcode.
  rewrite formatError_detail; [|exact Hno| | |].
  - unfold or_else. now rewrite Hcode, Hmessage.
  - rewrite Hmessage. now apply truthy_JStr.
  - unfold or_else. now rewrite Hcode.
  - now rewrite Hmessage.
Qed.

Lemma formatError_without_code_witness :
  formatError (httpError "Request failed with status code 404" 404
                 (JObject [("message", JStr "Not found"); ("detailCode", JStr "")]))
  = Returned "Error: Not found".
Proof.
  apply (formatError_without_code "Request failed with status code 404" 404
           [("message", JStr "Not found"); ("detailCode", JStr "")] "Not found").
  - intros ms. discriminate.
  - reflexivity.
  - discriminate.
  - reflexivity.
Defined.

(* ===================================================================== *)
(** * Further properties of the call-tool handler *)
(* ===================================================================== *)

(** The handler's three outcomes: the result of [handleTool] as JSON text;
    the formatted error as "Error: ..." flagged [isError]; or, only when
    the formatter itself throws, which it does on the response bodies it
    cannot finish, a TypeError that escapes the handler. *)
Theorem callTool_outcomes (cfg : Config) (rt : Runtime) (tool_name : string)
    (args : JsObject) (w : World) :
  match fst (handleTool cfg rt tool_name args w) with
  | Returned result =>
      fst (callTool cfg rt tool_name args w)
        = Returned {| text := Stringified result; isError := false |}
  | Threw error =>
      match formatError error with
      | Returned errorMessage =>
          fst (callTool cfg rt tool_name args w)
            = Returned {| text := Text ("Error: " ++ errorMessage); isError := true |}
      | Threw t =>
          fst (callTool cfg rt tool_name args w) = Threw t
          /\ exists e resp m,
               error = AxiosErr e /\ response e = Some resp
               /\ unformattable (resp_data resp)
               /\ t = ErrorObj "TypeError" m
      end
  end.
Proof.
  unfold callTool, tryCatch, bind, lift, ret.
  destruct (handleTool cfg rt tool_name args w) as [[result|error] w1]; simpl;
    [reflexivity|].
  destruct (formatError error) as [errorMessage|t] eqn:Hformat; [reflexivity|].
  split; [reflexivity|].
  exact (formatError_throws error t Hformat).
Qed.

(** When the token exchange fails, every tool call, whatever its name and
    arguments, is answered "Error: Error: Failed to obtain access token:
    <axios message>"; the exchange is the only request sent. *)
Theorem callTool_token_failure (cfg : Config) (rt : Runtime) (tool_name : string)
    (args : JsObject) (w : World) (e : AxiosError) :
  validateCredentials cfg = Returned tt ->
  stale rt w = true ->
  network rt (tokenRequest cfg) = Rejected e ->
  callTool cfg rt tool_name args w
    = (Returned {| text := Text ("Error: Error: Failed to obtain access token: "
                                 ++ message e);
                   isError := true |},
       logged w (tokenRequest cfg)).
Proof.
  intros Hvalid Hstale Hnet.
  assert (Htoken : getAccessToken cfg rt w
                   = (Threw (tokenFailure (message e)), logged w (tokenRequest cfg))).
  { rewrite (getAccessToken_refresh cfg rt w (stale_condition rt w Hstale)).
    now rewrite Hnet. }
  unfold callTool, tryCatch, handleTool, getApiClient, bind, lift, ret.
  rewrite Hvalid, Htoken. reflexivity.
Qed.

Lemma callTool_token_failure_witness :
  callTool acmeConfig
    {| now := 5;
       network := fun _ => Rejected {| message := "Request failed with status code 401";
                                       response := None |};
       StringToNumber := fun _ => NaN |}
    "no_such_tool" [] initialWorld
  = (Returned {| text := Text "Error: Error: Failed to obtain access token: Request failed with status code 401";
                 isError := true |},
     logged initialWorld (tokenRequest acmeConfig)).
Proof.
  apply (callTool_token_failure acmeConfig
           {| now := 5;
              network := fun _ => Rejected {| message := "Request failed with status code 401";
                                              response := None |};
              StringToNumber := fun _ => NaN |}
           "no_such_tool" [] initialWorld
           {| message := "Request failed with status code 401"; response := None |});
    reflexivity.
Defined.

(** When the selected request is rejected, the call is answered with the
    formatted error, the request was sent once and is not retried, and the
    token just obtained stays cached; a rejection without a response (no
    connection, timeout) reads "Error: HTTP undefined: <axios message>".
    This is for a token that can be written into the Authorization
    header; with a token that cannot be converted to a string the header
    assignment throws, the tool sends no request of its own and the call
    is answered with the text of that TypeError. *)
Theorem callTool_upstream_rejection (cfg : Config) (rt : Runtime)
    (tool_name : string) (args : JsObject) (w w1 : World) (token : JsValue)
    (call : ApiCall) (shape : Shaper) (e : AxiosError) :
  validateCredentials cfg = Returned tt ->
  clientInvariant cfg w ->
  getAccessToken cfg rt w = (Returned token, w1) ->
  switch cfg tool_name args = Returned (call, shape) ->
  network rt (requestOf (clientFor cfg token) call) = Rejected e ->
  if printable token then
    snd (callTool cfg rt tool_name args w)
      = logged (withClient w1 (clientFor cfg token)) (requestOf (clientFor cfg token) call)
    /\ (forall errorMessage,
          formatError (AxiosErr e) = Returned errorMessage ->
          fst (callTool cfg rt tool_name args w)
            = Returned {| text := Text ("Error: " ++ errorMessage); isError := true |})
    /\ (response e = None ->
        fst (callTool cfg rt tool_name args w)
          = Returned {| text := Text ("Error: HTTP undefined: " ++ message e);
                        isError := true |})
  else
    fst (callTool cfg rt tool_name args w)
      = Returned {| text := Text "Error: TypeError: Cannot convert object to primitive value";
                    isError := true |}
    /\ sent (snd (callTool cfg rt tool_name args w)) = sent w1.
Proof.
  intros Hvalid Hinv Htoken Hswitch Hnet.
  pose proof (handleTool_valid cfg rt tool_name args w Hvalid Hinv) as Hrun.
  rewrite Htoken in Hrun.
  destruct (printable token) eqn:Hprintable.
  - rewrite Hswitch, Hnet in Hrun.
    split; [now rewrite callTool_world, Hrun|].
    assert (Hformatted : forall errorMessage,
              formatError (AxiosErr e) = Returned errorMessage ->
              fst (callTool cfg rt tool_name args w)
                = Returned {| text := Text ("Error: " ++ errorMessage);
                              isError := true |}).
    { intros errorMessage Hformat.
      unfold callTool, tryCatch, bind, lift, ret.
      now rewrite Hrun, Hformat. }
    split; [exact Hformatted|].
    intros Hnone. apply Hformatted. unfold formatError. now rewrite Hnone.
  - split.
    + unfold callTool, tryCatch, bind, lift, ret. now rewrite Hrun.
    + now rewrite callTool_world, Hrun.
Qed.

Lemma callTool_upstream_rejection_witness :
  fst (callTool acmeConfig
         {| now := 1000000;
            network := fun r =>
              if (url r =? "/v3/roles/r1")%string
              then Rejected {| message := "timeout of 30000ms exceeded"; response := None |}
              else upstream freshBody r;
            StringToNumber := fun _ => NaN |}
         "get_role" [("id", JStr "r1")] initialWorld)
  = Returned {| text := Text "Error: HTTP undefined: timeout of 30000ms exceeded";
                isError := true |}.
Proof.
  refine (proj2 (proj2
    (callTool_upstream_rejection acmeConfig
       {| now := 1000000;
          network := fun r =>
            if (url r =? "/v3/roles/r1")%string
            then Rejected {| message := "timeout of 30000ms exceeded"; response := None |}
            else upstream freshBody r;
          StringToNumber := fun _ => NaN |}
       "get_role" [("id", JStr "r1")] initialWorld
       _ (JStr "fresh") (ApiGet "/v3/roles/r1" None) resp_data
       {| message := "timeout of 30000ms exceeded"; response := None |}
       eq_refl (or_introl eq_refl) eq_refl eq_refl eq_refl)) eq_refl).
Defined.

Example callTool_unprintable_token :
  callTool acmeConfig
    {| now := 1000000;
       network := upstream (JObject [("access_token", JObject [("toString", JNum 1)]);
                                     ("expires_in", JNum 3600)]);
       StringToNumber := fun _ => NaN |}
    "get_role" [("id", JStr "r1")] initialWorld
  = (Returned {| text := Text "Error: TypeError: Cannot convert object to primitive value";
                 isError := true |},
     {| accessToken := JObject [("toString", JNum 1)];
        tokenExpiry := Num 4600000;
        apiClient := Some (createdClient acmeConfig);
        sent := [tokenRequest acmeConfig] |}).
Proof. reflexivity. Qed.

(* ===================================================================== *)
(** * Further properties of the switch *)
(* ===================================================================== *)

Lemma recognized_dec (tool_name : string) :
  {recognized tool_name} + {~ recognized tool_name}.
Proof. apply in_dec. exact string_dec. Qed.

(** Every tool but search returns the upstream body as it is. *)
Theorem responses_pass_through (cfg : Config) (tool_name : string)
    (args : JsObject) (call : ApiCall) (shape : Shaper) :
  tool_name <> "search" ->
  switch cfg tool_name args = Returned (call, shape) ->
  forall response, shape response = resp_data response.
Proof.
  intros Hsearch Hswitch.
  destruct (recognized_dec tool_name) as [Hin|Hnot].
  - unfold recognized in Hin. simpl in Hin.
    repeat (destruct Hin as [Hin|Hin];
            [ subst tool_name;
              first [ now contradiction Hsearch
                    | cbn in Hswitch; inversion Hswitch; reflexivity
                    | revert Hswitch; cbn; split_template;
                      intros Hswitch; inversion Hswitch; reflexivity
                    | revert Hswitch; cbn; split_copyRefs "entitlementIds";
                      intros Hswitch; inversion Hswitch; reflexivity
                    | revert Hswitch; cbn; split_copyRefs "accessProfileIds";
                      intros Hswitch; inversion Hswitch; reflexivity ]
            | ]).
    contradiction.
  - rewrite (switch_unknown cfg tool_name args Hnot) in Hswitch. discriminate.
Qed.

Lemma responses_pass_through_witness :
  match switch acmeConfig "list_sources" [("limit", JNum 10)] with
  | Returned (_, shape) => forall response, shape response = resp_data response
  | Threw _ => False
  end.
Proof.
  destruct (switch acmeConfig "list_sources" [("limit", JNum 10)])
    as [[call shape]|t] eqn:Hswitch.
  - apply (responses_pass_through acmeConfig "list_sources" [("limit", JNum 10)]
             call shape); [discriminate | exact Hswitch].
  - cbn in Hswitch. discriminate Hswitch.
Defined.

(** The search tool always asks for the count, passes limit only when it
    is truthy, nests the query string in a query object, and returns the
    upstream body together with the x-total-count response header, which
    is undefined when the header is missing. *)
Theorem search_request (cfg : Config) (args : JsObject) :
  exists body ps shape,
    switch cfg "search" args
      = Returned (ApiPost (apiPath cfg "/v3/search") (Some (JObject body)) (Some ps),
                  shape)
    /\ get ps "count" = JBool true
    /\ (In "limit" (keys ps) <-> truthy (get args "limit") = true)
    /\ get body "indices" = get args "indices"
    /\ optGet (get body "query") "query" = get args "query"
    /\ (forall response,
          shape response
            = JObject [("results", resp_data response);
                       ("totalCount", get (resp_headers response) "x-total-count")])
    /\ (forall response,
          lookup (resp_headers response) "x-total-count" = None ->
          optGet (shape response) "totalCount" = JUndefined).
Proof.
  enter_case. eexists. eexists. eexists.
  split; [reflexivity|].
  split; [apply get_set_same|].
  split.
  { rewrite keys_set, keys_copyIf. cbn. intuition (try discriminate; try congruence). }
  split.
  { unfold copyIf.
    destruct (truthy (get args "searchAfter")), (truthy (get args "sort"));
      repeat rewrite get_set_other by discriminate; reflexivity. }
  split.
  { unfold copyIf.
    destruct (truthy (get args "searchAfter")), (truthy (get args "sort")),
      (truthy (get args "queryType"));
      repeat rewrite get_set_other by discriminate; reflexivity. }
  split; [reflexivity|].
  intros response Hnone. simpl. unfold get. now rewrite Hnone.
Qed.

Ltac unknown_key H :=
  let Heq := fresh in
  intro Heq; apply H; rewrite <- Heq; simpl; tauto.

(** Arguments that the tool's schema does not declare are ignored: adding
    or changing one selects the same request. *)
Theorem undeclared_arguments_are_ignored (cfg : Config) (t : Tool)
    (k : string) (v : JsValue) (args : JsObject) :
  In t tools ->
  ~ In k (map fst (properties t)) ->
  switch cfg (name t) (set args k v) = switch cfg (name t) args.
Proof.
  intros Htool Hundeclared. simpl in Htool.
  repeat (destruct Htool as [Htool|Htool];
          [ subst t; enter_case;
            unfold copyIf, copyIfDefined, copyRefs;
            repeat rewrite (get_set_other args k _ v) by (unknown_key Hundeclared);
            reflexivity
          | ]).
  contradiction.
Qed.

Lemma undeclared_arguments_are_ignored_witness :
  switch acmeConfig "get_role" (set [("id", JStr "r1")] "limit" (JNum 5))
  = switch acmeConfig "get_role" [("id", JStr "r1")].
Proof.
  apply (undeclared_arguments_are_ignored acmeConfig
           (tool "get_role" [("id", "string")] ["id"])
           "limit" (JNum 5) [("id", JStr "r1")]).
  - simpl. do 12 right. left. reflexivity.
  - simpl. intros [H|H]; [discriminate H | exact H].
Defined.

Lemma keys_copyIfDefined (args : JsObject) (a : string) (o : JsObject)
    (k k' : string) :
  In k' (keys (copyIfDefined args a o k))
  <-> (k' = k /\ get args a <> JUndefined) \/ In k' (keys o).
Proof.
  unfold copyIfDefined.
  destruct (get args a); rewrite ?keys_set;
    intuition (try discriminate; try congruence).
Qed.

Lemma get_copyIfDefined_same (args : JsObject) (a : string) (o : JsObject)
    (k : string) :
  get args a <> JUndefined -> get (copyIfDefined args a o k) k = get args a.
Proof.
  unfold copyIfDefined. intros Hdefined.
  destruct (get args a); try contradiction; apply get_set_same.
Qed.

(** In the bodies of create_access_profile and create_role, requestable is
    sent whenever the argument is there, false included, while
    description is sent only when it is truthy, so the empty description is
    left out. *)
Theorem create_keeps_requestable_false (cfg : Config) (tool_name : string)
    (args : JsObject) (fields : JsObject) :
  tool_name = "create_access_profile" \/ tool_name = "create_role" ->
  bodyFields (switch cfg tool_name args) = Some fields ->
  (In "requestable" (keys fields) <-> get args "requestable" <> JUndefined)
  /\ (get args "requestable" <> JUndefined ->
      get fields "requestable" = get args "requestable")
  /\ (In "description" (keys fields) <-> truthy (get args "description") = true)
  /\ get fields "name" = get args "name".
Proof.
  intros [-> | ->]; enter_case; unfold copyRefs.
  - destruct (truthy (get args "entitlementIds"));
      [destruct (get args "entitlementIds")|]; cbn [bodyFields];
      intros Hbody; inversion Hbody; subst fields; clear Hbody;
      rewrite ?keys_set, !keys_copyIfDefined, !keys_copyIf;
      repeat rewrite get_set_other by discriminate;
      (split; [cbn; intuition (try discriminate; try congruence)|]);
      (split; [intros Hdef; now apply get_copyIfDefined_same|]);
      (split; [cbn; intuition (try discriminate; try congruence)|]);
      unfold copyIfDefined, copyIf;
      destruct (get args "requestable"), (truthy (get args "description"));
      repeat rewrite get_set_other by discriminate; reflexivity.
  - destruct (truthy (get args "accessProfileIds"));
      [destruct (get args "accessProfileIds")|]; cbn [bodyFields];
      intros Hbody; inversion Hbody; subst fields; clear Hbody;
      rewrite ?keys_set, !keys_copyIfDefined, !keys_copyIf;
      repeat rewrite get_set_other by discriminate;
      (split; [cbn; intuition (try discriminate; try congruence)|]);
      (split; [intros Hdef; now apply get_copyIfDefined_same|]);
      (split; [cbn; intuition (try discriminate; try congruence)|]);
      unfold copyIfDefined, copyIf;
      destruct (get args "requestable"), (truthy (get args "description"));
      repeat rewrite get_set_other by discriminate; reflexivity.
Qed.

Lemma create_keeps_requestable_false_witness :
  In "requestable"
     (keys [("name", JStr "Auditors");
            ("owner", JObject [("id", JStr "o1"); ("type", JStr "IDENTITY")]);
            ("requestable", JBool false)])
  /\ ~ In "description"
       (keys [("name", JStr "Auditors");
              ("owner", JObject [("id", JStr "o1"); ("type", JStr "IDENTITY")]);
              ("requestable", JBool false)]).
Proof.
  destruct (create_keeps_requestable_false acmeConfig "create_role"
              [("name", JStr "Auditors"); ("ownerId", JStr "o1");
               ("description", JStr ""); ("requestable", JBool false)]
              [("name", JStr "Auditors");
               ("owner", JObject [("id", JStr "o1"); ("type", JStr "IDENTITY")]);
               ("requestable", JBool false)]
              (or_intror eq_refl) eq_refl)
    as [Hrequestable [_ [Hdescription _]]].
  split.
  - apply Hrequestable. discriminate.
  - intros Hin. apply Hdescription in Hin. discriminate Hin.
Defined.

(** A list of ids becomes the list of references {id, type} in the same
    order, the empty list included; owner and source are wrapped in the
    same way, whatever the arguments hold. *)
Theorem create_wraps_references (cfg : Config) (args : JsObject)
    (ids : list JsValue) :
  (get args "entitlementIds" = JArray ids ->
   exists fields,
     bodyFields (switch cfg "create_access_profile" args) = Some fields
     /\ get fields "entitlements"
        = JArray (map (fun id => JObject [("id", id); ("type", JStr "ENTITLEMENT")]) ids)
     /\ get fields "source"
        = JObject [("id", get args "sourceId"); ("type", JStr "SOURCE")]
     /\ get fields "owner"
        = JObject [("id", get args "ownerId"); ("type", JStr "IDENTITY")])
  /\ (get args "accessProfileIds" = JArray ids ->
      exists fields,
        bodyFields (switch cfg "create_role" args) = Some fields
        /\ get fields "accessProfiles"
           = JArray (map (fun id => JObject [("id", id); ("type", JStr "ACCESS_PROFILE")])
                         ids)
        /\ get fields "owner"
           = JObject [("id", get args "ownerId"); ("type", JStr "IDENTITY")]).
Proof.
  split; intros Hids; enter_case; unfold copyRefs; rewrite Hids;
    cbn [truthy bodyFields]; eexists; (split; [reflexivity|]);
    (split; [apply get_set_same|]);
    unfold copyIfDefined, copyIf;
    destruct (get args "requestable"), (truthy (get args "description"));
    repeat rewrite get_set_other by discriminate; repeat split.
Qed.

Lemma create_wraps_references_witness :
  exists fields,
    bodyFields (switch acmeConfig "create_role"
                  [("name", JStr "Auditors"); ("ownerId", JStr "o1");
                   ("accessProfileIds", JArray [JStr "ap2"; JStr "ap1"])])
      = Some fields
    /\ get fields "accessProfiles"
       = JArray (map (fun id => JObject [("id", id); ("type", JStr "ACCESS_PROFILE")])
                     [JStr "ap2"; JStr "ap1"])
    /\ get fields "owner"
       = JObject [("id", get [("name", JStr "Auditors"); ("ownerId", JStr "o1");
                              ("accessProfileIds", JArray [JStr "ap2"; JStr "ap1"])]
                             "ownerId");
                  ("type", JStr "IDENTITY")].
Proof.
  apply (proj2 (create_wraps_references acmeConfig
                  [("name", JStr "Auditors"); ("ownerId", JStr "o1");
                   ("accessProfileIds", JArray [JStr "ap2"; JStr "ap1"])]
                  [JStr "ap2"; JStr "ap1"])).
  reflexivity.
Defined.

(** Path arguments are not checked: a tool whose documented path has the
    [{id}] placeholder, called without its identifier argument, still
    selects its request, on the path with "undefined" in the placeholder. *)
Theorem missing_identifier_is_not_checked (cfg : Config) (tool_name : string)
    (m : Method) (template : list Piece) (args : JsObject) :
  In (tool_name, m, template) documentedEndpoints ->
  In Id template ->
  lookup args (pathArgument tool_name) = None ->
  exists call shape,
    switch cfg tool_name args = Returned (call, shape)
    /\ callMethod call = m
    /\ callUrl call = apiPath cfg (fill template "undefined").
Proof.
  intros Hrow Hid Hmissing.
  pose proof (switch_follows_row cfg tool_name m template args Hrow) as Hfollows.
  unfold followsRow in Hfollows.
  rewrite (lookup_none_get _ _ Hmissing) in Hfollows.
  destruct (switch cfg tool_name args) as [[call shape]|t].
  - exists call, shape. destruct Hfollows as [Hmethod [Hurl _]].
    split; [reflexivity|]. split; [exact Hmethod | exact Hurl].
  - exfalso.
    destruct Hfollows as [[a [[[-> _] | [-> _]] _]] | [_ [Hprintable _]]];
      [ | | discriminate Hprintable];
      simpl in Hrow;
      repeat (destruct Hrow as [Hrow|Hrow];
              [ try discriminate Hrow; inversion Hrow; subst;
                simpl in Hid; intuition discriminate | ]);
      exact Hrow.
Qed.

Lemma missing_identifier_is_not_checked_witness :
  exists call shape,
    switch acmeConfig "enable_account" [] = Returned (call, shape)
    /\ callMethod call = POST
    /\ callUrl call
       = apiPath acmeConfig (fill [Lit "/v3/accounts/"; Id; Lit "/enable"] "undefined").
Proof.
  apply (missing_identifier_is_not_checked acmeConfig "enable_account" POST
           [Lit "/v3/accounts/"; Id; Lit "/enable"] []).
  - unfold documentedEndpoints. do 30 right. left. reflexivity.
  - simpl. tauto.
  - reflexivity.
Defined.

(* ===================================================================== *)
(** * Further properties of the configuration and of startup *)
(* ===================================================================== *)

Lemma stripPrefix_sound (p s rest : string) :
  stripPrefix p s = Some rest -> s = p ++ rest.
Proof.
  revert s. induction p as [|a p IH]; intros s H; simpl in *.
  - now inversion H.
  - destruct s as [|b s]; [discriminate H|].
    destruct (Ascii.eqb a b) eqn:E; [|discriminate H].
    apply Ascii.eqb_eq in E. subst b. now rewrite (IH s H).
Qed.

Lemma splitFirst_unfold (p s : string) :
  splitFirst p s =
    match stripPrefix p s with
    | Some rest => Some ("", rest)
    | None =>
        match s with
        | EmptyString => None
        | String c s' =>
            match splitFirst p s' with
            | Some (before, after) => Some (String c before, after)
            | None => None
            end
        end
    end.
Proof. destruct s; reflexivity. Qed.

Lemma splitFirst_sound (p s before after : string) :
  splitFirst p s = Some (before, after) -> s = before ++ p ++ after.
Proof.
  revert before. induction s as [|c s IH]; intros before H;
    rewrite splitFirst_unfold in H.
  - destruct (stripPrefix p "") as [rest|] eqn:Hstrip; [|discriminate H].
    inversion H; subst. exact (stripPrefix_sound p "" after Hstrip).
  - destruct (stripPrefix p (String c s)) as [rest|] eqn:Hstrip.
    + inversion H; subst. exact (stripPrefix_sound p (String c s) after Hstrip).
    + destruct (splitFirst p s) as [[b a]|] eqn:Hsplit; [|discriminate H].
      inversion H; subst. simpl. now rewrite (IH b eq_refl).
Qed.

(** Replacing a pattern without a dollar sign by itself changes nothing. *)
Lemma replace_same (s p : string) : dollarFree p = true -> replace s p p = s.
Proof.
  intros Hfree. unfold replace.
  destruct (splitFirst p s) as [[before after]|] eqn:Hsplit; [|reflexivity].
  rewrite (GetSubstitution_dollarFree p before after p Hfree).
  symmetry. now apply splitFirst_sound.
Qed.

(** The version selector is never empty, an unset or empty variable
    selects v3, and under v3 the path helper returns every path as it is,
    including paths without a /v3/ segment. *)
Theorem default_version_keeps_paths (e : ProcessEnv) (path : string) :
  SAILPOINT_API_VERSION (loadConfig e) <> ""
  /\ (unset (env_API_VERSION e) = true \/ env_API_VERSION e = Some "v3" ->
      SAILPOINT_API_VERSION (loadConfig e) = "v3"
      /\ apiPath (loadConfig e) path = path).
Proof.
  split.
  - unfold loadConfig, envOr. simpl.
    destruct (env_API_VERSION e) as [s|]; [|discriminate].
    destruct (s =? "")%string eqn:E; [discriminate|].
    now apply String.eqb_neq.
  - intros Hdefault.
    assert (Hv3 : SAILPOINT_API_VERSION (loadConfig e) = "v3").
    { unfold loadConfig, envOr. simpl.
      destruct Hdefault as [Hunset | ->]; [|reflexivity].
      destruct (env_API_VERSION e) as [s|]; [|reflexivity].
      simpl in Hunset. now rewrite Hunset. }
    split; [exact Hv3|].
    unfold apiPath. rewrite Hv3. now apply replace_same.
Qed.

Lemma default_version_keeps_paths_witness :
  apiPath (loadConfig {| env_BASE_URL := Some "https://acme.api.identitynow.com";
                         env_CLIENT_ID := Some "client";
                         env_CLIENT_SECRET := Some "secret";
                         env_API_VERSION := Some "" |})
          "/beta/roles//v3/x"
  = "/beta/roles//v3/x".
Proof.
  apply (default_version_keeps_paths
           {| env_BASE_URL := Some "https://acme.api.identitynow.com";
              env_CLIENT_ID := Some "client";
              env_CLIENT_SECRET := Some "secret";
              env_API_VERSION := Some "" |}
           "/beta/roles//v3/x").
  left. reflexivity.
Defined.

Lemma missingVars_hasCredentials (cfg : Config) :
  missingVars cfg = [] <-> hasCredentials cfg = true.
Proof.
  unfold missingVars, hasCredentials.
  destruct (SAILPOINT_BASE_URL cfg =? "")%string,
    (SAILPOINT_CLIENT_ID cfg =? "")%string,
    (SAILPOINT_CLIENT_SECRET cfg =? "")%string; simpl;
    split; intros H; try reflexivity; discriminate H.
Qed.

(** Startup and validation agree: the process prints the warning at
    startup exactly for the configurations on which every tool call fails
    validation, and whether it exits depends on the transport alone: it
    exits with code 1 exactly when attaching the transport fails. *)
Theorem startup_agrees_with_validation (cfg : Config) (connect : Result unit) :
  (validateCredentials cfg = Returned tt <-> hasCredentials cfg = true)
  /\ (In (Line credentialsWarning) (fst (main cfg connect))
      <-> hasCredentials cfg = false)
  /\ (In (Line ("SailPoint MCP Server initialized for: " ++ SAILPOINT_BASE_URL cfg))
         (fst (main cfg connect))
      <-> hasCredentials cfg = true)
  /\ snd (main cfg connect)
     = match connect with Returned _ => None | Threw _ => Some 1 end
  /\ (In (Line "SailPoint MCP Server running on stdio") (fst (main cfg connect))
      <-> exists u, connect = Returned u).
Proof.
  split.
  { rewrite <- missingVars_hasCredentials. unfold validateCredentials.
    destruct (missingVars cfg); simpl; split; intros H;
      try reflexivity; discriminate H. }
  unfold main. fold (hasCredentials cfg).
  destruct (hasCredentials cfg), connect as [u|t]; simpl;
    unfold credentialsWarning;
    repeat split; intros H;
    repeat match goal with
           | H : _ \/ _ |- _ => destruct H as [H|H]
           | H : Line _ = Line _ |- _ => inversion H; clear H
           | H : Fatal _ = Line _ |- _ => discriminate H
           | H : exists _, _ |- _ => destruct H as [? H]
           | H : False |- _ => contradiction
           end;
    try discriminate; try (now eexists); auto.
Qed.

(* ===================================================================== *)
(** * Further properties across calls *)
(* ===================================================================== *)

Lemma handleTool_cache (cfg : Config) (rt : Runtime) (tool_name : string)
    (args : JsObject) (w w1 : World) (token : JsValue) :
  validateCredentials cfg = Returned tt ->
  clientInvariant cfg w ->
  getAccessToken cfg rt w = (Returned token, w1) ->
  accessToken (snd (handleTool cfg rt tool_name args w)) = accessToken w1
  /\ tokenExpiry (snd (handleTool cfg rt tool_name args w)) = tokenExpiry w1.
Proof.
  intros Hvalid Hinv Htoken.
  rewrite (handleTool_valid cfg rt tool_name args w Hvalid Hinv), Htoken.
  destruct (printable token); [|now split].
  destruct (switch cfg tool_name args) as [[call shape]|t]; [|now split].
  destruct (network rt (requestOf (clientFor cfg token) call)); now split.
Qed.

(** The token obtained by one tool call serves the next: a second call
    made while the token has more than 60 seconds left sends exactly one
    request, the selected one, under the bearer header of that token, and
    no second exchange. *)
Theorem second_call_reuses_token (cfg : Config) (rt rt' : Runtime)
    (first_name second_name : string) (first_args second_args : JsObject)
    (w : World) (resp : HttpResponse) (token : string) (n : Z)
    (call : ApiCall) (shape : Shaper) :
  validateCredentials cfg = Returned tt ->
  clientInvariant cfg w ->
  stale rt w = true ->
  network rt (tokenRequest cfg) = Fulfilled resp ->
  optGet (resp_data resp) "access_token" = JStr token ->
  token <> "" ->
  optGet (resp_data resp) "expires_in" = JNum n ->
  n <> 0 ->
  now rt' + 60000 < now rt + n * 1000 ->
  switch cfg second_name second_args = Returned (call, shape) ->
  sent (snd (handleTool cfg rt' second_name second_args
               (snd (handleTool cfg rt first_name first_args w))))
  = (sent (snd (handleTool cfg rt first_name first_args w))
     ++ [requestOf (clientFor cfg (JStr token)) call])%list.
Proof.
  intros Hvalid Hinv Hstale Hnet Htoken Hnonempty Hexpires Hnz Hearly Hswitch.
  pose proof (refresh_with_lifetime cfg rt w resp token n
                Hstale Hnet Htoken Hexpires Hnz) as Hfirst.
  destruct (handleTool_cache cfg rt first_name first_args w _ _ Hvalid Hinv Hfirst)
    as [Hcached Hexpiry].
  pose proof (clientInvariant_handleTool cfg rt first_name first_args w Hinv) as Hinv1.
  set (w1 := snd (handleTool cfg rt first_name first_args w)) in *.
  simpl in Hcached, Hexpiry.
  assert (Hsecond : getAccessToken cfg rt' w1 = (Returned (JStr token), w1)).
  { rewrite <- Hcached. apply getAccessToken_cached.
    rewrite Hcached, Hexpiry. rewrite (truthy_JStr token Hnonempty). simpl.
    apply Zgtb_true. lia. }
  rewrite (handleTool_valid cfg rt' second_name second_args w1 Hvalid Hinv1).
  rewrite Hsecond, Hswitch. cbn [printable].
  destruct (network rt' (requestOf (clientFor cfg (JStr token)) call)); reflexivity.
Qed.

Lemma second_call_reuses_token_witness :
  sent (snd (handleTool acmeConfig (runtimeAt 1000001 JNull) "get_role" [("id", JStr "r1")]
               (snd (handleTool acmeConfig (runtimeAt 1000000 freshBody)
                       "list_roles" [] initialWorld))))
  = (sent (snd (handleTool acmeConfig (runtimeAt 1000000 freshBody)
                  "list_roles" [] initialWorld))
     ++ [requestOf (clientFor acmeConfig (JStr "fresh")) (ApiGet "/v3/roles/r1" None)])%list.
Proof.
  apply (second_call_reuses_token acmeConfig (runtimeAt 1000000 freshBody)
           (runtimeAt 1000001 JNull) "list_roles" "get_role" [] [("id", JStr "r1")]
           initialWorld
           {| status := 200; resp_data := freshBody; resp_headers := [] |}
           "fresh" 3600 (ApiGet "/v3/roles/r1" None) resp_data).
  - reflexivity.
  - left. reflexivity.
  - reflexivity.
  - reflexivity.
  - reflexivity.
  - discriminate.
  - reflexivity.
  - lia.
  - simpl. lia.
  - reflexivity.
Defined.

(** A token response that is an object without access_token, and whose
    expires_in (if any) can be converted to a number, is not an error:
    [getAccessToken] returns undefined, the client's header becomes
    "Bearer undefined", and the cache stays stale at every clock, so each
    later call exchanges again. *)
Theorem response_without_access_token (cfg : Config) (rt : Runtime) (w : World)
    (resp : HttpResponse) (fields : JsObject) :
  stale rt w = true ->
  network rt (tokenRequest cfg) = Fulfilled resp ->
  resp_data resp = JObject fields ->
  lookup fields "access_token" = None ->
  printable (get fields "expires_in") = true ->
  fst (getAccessToken cfg rt w) = Returned JUndefined
  /\ (forall rt', stale rt' (snd (getAccessToken cfg rt w)) = true)
  /\ (clientInvariant cfg w ->
      exists api,
        fst (getApiClient cfg rt w) = Returned api
        /\ In ("Authorization", "Bearer undefined") (inst_headers api)).
Proof.
  intros Hstale Hnet Hdata Hmissing Hprintable.
  assert (Hlifetime : printable (lifetime (resp_data resp)) = true).
  { rewrite Hdata. unfold lifetime, or_else, optGet.
    destruct (truthy (get fields "expires_in")); [exact Hprintable | reflexivity]. }
  assert (Hrun : getAccessToken cfg rt w
                 = (Returned JUndefined, refreshed cfg rt w (resp_data resp))).
  { rewrite (getAccessToken_refresh cfg rt w (stale_condition rt w Hstale)), Hnet.
    rewrite Hlifetime, Hdata. simpl. unfold get. now rewrite Hmissing. }
  rewrite Hrun. split; [reflexivity|]. split.
  - intros rt'. unfold stale, refreshed. simpl. rewrite Hdata. simpl.
    unfold get. now rewrite Hmissing.
  - intros Hinv. exists (clientFor cfg JUndefined).
    rewrite (getApiClient_run cfg rt w _ JUndefined Hinv Hrun eq_refl).
    split; [reflexivity|]. simpl. tauto.
Qed.

Lemma response_without_access_token_witness :
  fst (getAccessToken acmeConfig
         (runtimeAt 1000000 (JObject [("error", JStr "invalid_client")]))
         initialWorld)
  = Returned JUndefined.
Proof.
  apply (response_without_access_token acmeConfig
           (runtimeAt 1000000 (JObject [("error", JStr "invalid_client")]))
           initialWorld
           {| status := 200; resp_data := JObject [("error", JStr "invalid_client")];
              resp_headers := [] |}
           [("error", JStr "invalid_client")]);
    reflexivity.
Defined.

(** An error escaping the handler, on a concrete run: the upstream
    rejects with a body whose messages list holds null, and the formatter
    throws while it reads the text of that element. *)
Example callTool_can_throw :
  fst (callTool acmeConfig
         {| now := 1000000;
            network := fun r =>
              if (url r =? "/v3/roles")%string
              then Rejected {| message := "Request failed with status code 400";
                               response :=
                                 Some {| status := 400;
                                         resp_data := JObject [("messages", JArray [JNull])];
                                         resp_headers := [] |} |}
              else upstream freshBody r;
            StringToNumber := fun _ => NaN |}
         "list_roles" [] initialWorld)
  = Threw (ErrorObj "TypeError" "Cannot read properties of null (reading 'text')").
Proof. reflexivity. Qed.

Lemma append_inv_head (a b c : string) : (a ++ b = a ++ c)%string -> b = c.
Proof.
  induction a as [|x a IH]; simpl; intros H; [exact H|].
  inversion H. now apply IH.
Qed.

Ltac differs Hfree :=
  let H := fresh "H" in
  intro H; cbn in H;
  first
    [ discriminate H
    | inversion H; fail
    | rewrite !GetSubstitution_dollarFree in H
        by (rewrite dollarFree_app, Hfree; reflexivity);
      inversion H as [Hurl];
      rewrite !append_assoc in Hurl;
      apply append_inv_head in Hurl; discriminate Hurl ].

(** The schema is exact: every argument a tool's schema declares is read
    by its case.  On otherwise empty arguments, supplying the string "x"
    for a declared property changes what the switch selects. *)
Theorem declared_arguments_are_read (cfg : Config) (t : Tool) (k : string) :
  dollarFree (SAILPOINT_API_VERSION cfg) = true ->
  In t tools ->
  In k (map fst (properties t)) ->
  switch cfg (name t) (set [] k (JStr "x")) <> switch cfg (name t) [].
Proof.
  intros Hfree Htool Hdeclared. simpl in Htool.
  repeat (destruct Htool as [Htool|Htool];
          [ subst t; simpl in Hdeclared;
            repeat (destruct Hdeclared as [Hdeclared|Hdeclared];
                    [ subst k; differs Hfree | ]);
            contradiction
          | ]).
  contradiction.
Qed.

Lemma declared_arguments_are_read_witness :
  switch acmeConfig "test_workflow" (set [] "input" (JStr "x"))
  <> switch acmeConfig "test_workflow" [].
Proof.
  apply (declared_arguments_are_read acmeConfig
           (tool "test_workflow" [("workflowId", "string"); ("input", "object")]
                 ["workflowId"])
           "input").
  - reflexivity.
  - simpl. do 22 right. left. reflexivity.
  - simpl. right. left. reflexivity.
Defined.
